(** * DOPtools command line interface: a shallow embedding of
      [doptools/cli/main.py] and the properties of its commands.

    The commands are short orchestration routines over pandas, click and the
    descriptor classes of [doptools.chem].  They are embedded as programs of
    a state-and-exception monad over a [World]: the files, the lines echoed,
    the list objects of the interpreter and the one [sys.argv] is bound to.
    The calls into pandas' parser, json, pickle, matplotlib and
    [doptools.chem] go through the fields of [Collab], so that every
    property holds whatever those libraries answer; the world keeps a
    chronological log of the calls made. *)

From Stdlib Require Import ZArith Lia DecimalString.
From stdpp Require Import base option list strings gmap.

Open Scope Z_scope.
Open Scope string_scope.
Open Scope list_scope.

(** ** Python exceptions *)

(** Every exception that the body of a command can see is an instance of
    [Exception]: either click's [ClickException], or any other class, kept
    as its class name and the text [str(e)] gives. *)
Inductive Exn : Type :=
| ClickException (message : string)
| PyError (cls : string) (text : string).

(** [str(e)]: click's [ClickException.__str__] returns the message. *)
Definition str (e : Exn) : string :=
  match e with
  | ClickException m => m
  | PyError _ t => t
  end.

Inductive result (A : Type) : Type :=
| Ok (a : A)
| Raise (e : Exn).
Arguments Ok {A} a.
Arguments Raise {A} e.

(** ** Values *)

(** A scalar of a table.  [CFloat z] is the float of the integer [z]: what
    pandas makes of the values of an integer column once a [NaN] has to
    stand among them. *)
Inductive Cell : Type :=
| CStr (s : string)
| CInt (z : Z)
| CFloat (z : Z)
| CNaN.

#[global] Instance Cell_eq_dec : EqDecision Cell.
Proof. solve_decision. Defined.

(** [str(n)] for a Python [int]. *)
Definition str_int (z : Z) : string := NilZero.string_of_int (Z.to_int z).

(** A JSON value, as [json.load] returns it and [json.dump] takes it; the
    members of an object keep their order, as a Python [dict] does. *)
#[warnings="-register-all"]
Inductive Json : Type :=
| JNull
| JBool (b : bool)
| JNum (z : Z)
| JStr (s : string)
| JArr (items : list Json)
| JObj (members : list (string * Json)).

(** [d[key]] of a [dict] literal: the last binding of a key wins, and the
    literals of [main.py] have no repeated key. *)
Fixpoint members_get (key : string) (ms : list (string * Json)) : option Json :=
  match ms with
  | [] => None
  | (k, v) :: rest => if String.eqb k key then Some v else members_get key rest
  end.

Definition json_get (key : string) (j : Json) : option Json :=
  match j with
  | JObj ms => members_get key ms
  | _ => None
  end.

(** ** pandas tables *)

(** [range(n)] as cells; these are also the row labels of pandas' default
    index, [RangeIndex(n)]. *)
Definition range_cells (n : nat) : list Cell :=
  (fun i => CInt (Z.of_nat i)) <$> seq 0 n.

(** A [DataFrame]: the labels of its rows, which pandas calls its index,
    and its columns in order, each a label and the values of the column. *)
Record DataFrame : Type := mkFrame {
  index : list Cell;
  columns : list (string * list Cell)
}.

(** [len(df)] *)
Definition nrows (df : DataFrame) : nat := length (index df).

(** The frame of [n] rows that carries the default index [0..n-1]. *)
Definition mkDF (n : nat) (cols : list (string * list Cell)) : DataFrame :=
  mkFrame (range_cells n) cols.


(** The values of a [Series]; its row labels are those of the frame it is
    taken from. *)
Definition Series : Type := list Cell.

Definition col_names (df : DataFrame) : list string := (columns df).*1.

(** [name in df.columns] *)
Definition has_column (name : string) (df : DataFrame) : bool :=
  bool_decide (name ∈ col_names df).

Fixpoint lookup_col (name : string) (cols : list (string * list Cell))
  : option (list Cell) :=
  match cols with
  | [] => None
  | (k, v) :: rest => if String.eqb k name then Some v else lookup_col name rest
  end.

(** [df[name]]: [KeyError] when there is no such column. *)
Definition getitem (df : DataFrame) (name : string) : result Series :=
  match lookup_col name (columns df) with
  | Some v => Ok v
  | None => Raise (PyError "KeyError" ("'" +:+ name +:+ "'"))
  end.

(** Every column of a frame has one value per row. *)
Definition well_formed (df : DataFrame) : Prop :=
  Forall (fun c => length c.2 = nrows df) (columns df).

(** What [DataFrame.insert] is given as the new column: a [Series] with
    the row labels it carries, or a [range]. *)
Inductive InsertValue : Type :=
| FromSeries (labels : list Cell) (s : Series)
| FromRange (n : nat).

(** The row labels of a value once pandas has made a [Series] of it. *)
Definition value_index (v : InsertValue) : list Cell :=
  match v with
  | FromSeries labels _ => labels
  | FromRange k => range_cells k
  end.

(** The value a series has at a label: that of the first row so
    labelled. *)
Fixpoint at_label (l : Cell) (labels : list Cell) (s : Series) : option Cell :=
  match labels, s with
  | k :: labels', v :: s' => if decide (k = l) then Some v else at_label l labels' s'
  | _, _ => None
  end.

Definition is_int (c : Cell) : bool :=
  match c with CInt _ => true | _ => false end.

Definition to_float (c : Cell) : Cell :=
  match c with CInt z => CFloat z | _ => c end.

Definition is_none {A} (o : option A) : bool :=
  match o with None => true | Some _ => false end.

(** [s.reindex(idx)]: row by row, the value the series has at the label of
    the row, and [NaN] where it has none; the values of an integer series
    become floats when a [NaN] comes to stand among them. *)
Definition reindex (idx labels : list Cell) (s : Series) : list Cell :=
  let aligned := (fun l => at_label l labels s) <$> idx in
  if forallb is_int s && existsb is_none aligned
  then from_option to_float CNaN <$> aligned
  else default CNaN <$> aligned.

(** [DataFrame._ensure_valid_index]: a frame without rows that is given a
    value that is not empty takes the row labels of the value, and its
    columns are filled with [NaN]. *)
Definition ensure_valid_index (v : InsertValue) (df : DataFrame) : DataFrame :=
  match index df, value_index v with
  | [], _ :: _ =>
      mkFrame (value_index v)
        ((fun c => (c.1, (fun _ => CNaN) <$> value_index v)) <$> columns df)
  | _, _ => df
  end.

(** [DataFrame._sanitize_column] on a frame with row labels [idx].  A
    [Series] whose labels are those of the frame, or given to a frame
    without rows, is taken as it is; any other is aligned on the labels of
    the frame, which pandas refuses when the labels of the series repeat.
    Any other sequence must have one value per row. *)
Definition sanitize_column (idx : list Cell) (v : InsertValue) : result (list Cell) :=
  match v with
  | FromSeries labels s =>
      if bool_decide (labels = idx) || bool_decide (idx = []) then Ok s
      else if bool_decide (NoDup labels) then Ok (reindex idx labels s)
      else Raise (PyError "ValueError"
                    "cannot reindex on an axis with duplicate labels")
  | FromRange k =>
      if bool_decide (k = length idx) then Ok (range_cells k)
      else Raise (PyError "ValueError"
                    ("Length of values (" +:+ str_int (Z.of_nat k) +:+
                     ") does not match length of index (" +:+
                     str_int (Z.of_nat (length idx)) +:+ ")"))
  end.

(** [df.insert(loc, column, value)], with [allow_duplicates] left at its
    default: the label must be new, the value fit the index, and [loc] lie
    within the columns. *)
Definition df_insert (loc : nat) (column : string) (value : InsertValue)
    (df : DataFrame) : result DataFrame :=
  if has_column column df then
    Raise (PyError "ValueError" ("cannot insert " +:+ column +:+ ", already exists"))
  else
    let df := ensure_valid_index value df in
    match sanitize_column (index df) value with
    | Raise e => Raise e
    | Ok vals =>
        if bool_decide (loc ≤ length (columns df))%nat then
          Ok (mkFrame (index df)
                (take loc (columns df) ++ (column, vals) :: drop loc (columns df)))
        else
          Raise (PyError "IndexError"
                   ("index " +:+ str_int (Z.of_nat loc) +:+
                    " is out of bounds for axis 0 with size " +:+
                    str_int (Z.of_nat (length (columns df)))))
    end.

(** Row [i] of a frame, across its columns. *)
Definition row_at (df : DataFrame) (i : nat) : list Cell :=
  (fun c => default CNaN (c.2 !! i)) <$> columns df.

Definition rows_of (df : DataFrame) : list (list Cell) :=
  row_at df <$> seq 0 (nrows df).

(** ** Files *)

(** What a file holds.  A table that [to_csv] wrote is kept with its field
    separator, header line and data lines; a document that [json.dump]
    wrote with its indentation; a figure with the options of [savefig]. *)
Inductive FileContent : Type :=
| FCsv (sep : string) (header : list string) (rows : list (list Cell))
| FJson (doc : Json) (indent : Z)
| FFigure (fig : string) (dpi : Z) (bbox_inches : string)
| FBlob (bytes : string).

(** [df.to_csv(path, index=False)]: the separator is pandas' default, a
    comma; the row labels are not written. *)
Definition csv_of (df : DataFrame) : FileContent :=
  FCsv "," (col_names df) (rows_of df).

(** ** The world a command runs in *)

(** A call that leaves [main.py], as the log keeps it. *)
Inductive Event : Type :=
| EvJsonLoad (path : string)
| EvReadCsv (path sep : string)
| EvNew (cls : string)
| EvFit (xs : list Cell)
| EvTransform (xs : list Cell)
| EvTransformTable (df : DataFrame)
| EvToCsv (path : string)
| EvPickleLoad (path : string)
| EvExplain (smiles : string)
| EvSavefig (path : string)
| EvShow
| EvJsonDump (path : string)
| EvImport (module : string).

Record World : Type := mkWorld {
  files : gmap string FileContent;   (* the file system *)
  denied : gset string;              (* paths that cannot be opened for writing *)
  heap : list (list string);         (* the list objects, by identity *)
  sys_argv : nat;                    (* the object [sys.argv] is bound to *)
  stdout : list string;              (* lines echoed, oldest first *)
  calls : list Event                 (* calls made, oldest first *)
}.

Definition set_files (f : gmap string FileContent) (w : World) : World :=
  mkWorld f (denied w) (heap w) (sys_argv w) (stdout w) (calls w).
Definition set_heap (h : list (list string)) (w : World) : World :=
  mkWorld (files w) (denied w) h (sys_argv w) (stdout w) (calls w).
Definition set_sys_argv (r : nat) (w : World) : World :=
  mkWorld (files w) (denied w) (heap w) r (stdout w) (calls w).
Definition set_stdout (o : list string) (w : World) : World :=
  mkWorld (files w) (denied w) (heap w) (sys_argv w) o (calls w).
Definition set_calls (c : list Event) (w : World) : World :=
  mkWorld (files w) (denied w) (heap w) (sys_argv w) (stdout w) c.

(** ** The monad of command bodies: state and exceptions *)

Definition M (A : Type) : Type := World -> result A * World.

Definition ret {A} (a : A) : M A := fun w => (Ok a, w).

Definition bind {A B} (m : M A) (k : A -> M B) : M B :=
  fun w =>
    match m w with
    | (Ok a, w') => k a w'
    | (Raise e, w') => (Raise e, w')
    end.

Definition raise {A} (e : Exn) : M A := fun w => (Raise e, w).

(** [try: body except Exception as e: handler(e)]; what the body did to the
    world before it raised stays done. *)
Definition try_except {A} (body : M A) (handler : Exn -> M A) : M A :=
  fun w =>
    match body w with
    | (Ok a, w') => (Ok a, w')
    | (Raise e, w') => handler e w'
    end.

(** A computation that does not touch the world. *)
Definition lift {A} (r : result A) : M A := fun w => (r, w).

Notation "'let!' x ':=' m 'in' k" := (bind m (fun x => k))
  (at level 10, x name, m at level 100, k at level 200).
Notation "m '>>' k" := (bind m (fun _ => k))
  (at level 100, k at level 200, right associativity).

(** [if b: m] *)
Definition when (b : bool) (m : M unit) : M unit := if b then m else ret tt.

(** [click.echo(line)] *)
Definition echo (line : string) : M unit :=
  fun w => (Ok tt, set_stdout (stdout w ++ [line]) w).

(** Recording a call in the log. *)
Definition log (ev : Event) : M unit :=
  fun w => (Ok tt, set_calls (calls w ++ [ev]) w).

(** A call of a collaborator: recorded, then its result. *)
Definition call {A} (ev : Event) (r : result A) : M A := log ev >> lift r.

(** [open(path, 'r')] and reading the file. *)
Definition open_r (path : string) : M FileContent :=
  fun w =>
    match files w !! path with
    | Some c => (Ok c, w)
    | None => (Raise (PyError "FileNotFoundError"
                 ("[Errno 2] No such file or directory: '" +:+ path +:+ "'")), w)
    end.

(** [open(path, 'w')] and writing the whole of [content]. *)
Definition write_file (path : string) (content : FileContent) : M unit :=
  fun w =>
    if bool_decide (path ∈ denied w) then
      (Raise (PyError "PermissionError"
         ("[Errno 13] Permission denied: '" +:+ path +:+ "'")), w)
    else (Ok tt, set_files (<[path := content]> (files w)) w).

(** A list display [[x, y, ...]] makes a new list object. *)
Definition new_list (l : list string) : M nat :=
  fun w => (Ok (length (heap w)), set_heap (heap w ++ [l]) w).

(** [r.extend(xs)]; [r.append(x)] is [r.extend([x])]. *)
Definition list_extend (r : nat) (xs : list string) : M unit :=
  fun w => (Ok tt, set_heap (alter (fun l => l ++ xs) r (heap w)) w).

Definition get_sys_argv : M nat := fun w => (Ok (sys_argv w), w).
Definition put_sys_argv (r : nat) : M unit := fun w => (Ok tt, set_sys_argv r w).

(** The truth value of an option that click leaves [None] when it is not
    given: [None] and the empty string are false. *)
Definition truthy (o : option string) : bool :=
  match o with
  | Some s => negb (String.eqb s EmptyString)
  | None => false
  end.

(** ** click at the command boundary *)

Record Outcome : Type := mkOutcome {
  exit_code : Z;
  stderr : list string;
  final : World
}.

(** click runs the command; a [ClickException] is shown as one line
    [Error: message] and the process exits with its [exit_code], 1. *)
Definition invoke (cmd : M unit) (w : World) : Outcome :=
  match cmd w with
  | (Ok _, w') => mkOutcome 0 [] w'
  | (Raise (ClickException m), w') => mkOutcome 1 ["Error: " +:+ m] w'
  | (Raise (PyError c t), w') =>
      mkOutcome 1 ["Traceback (most recent call last):"; c +:+ ": " +:+ t] w'
  end.

(** ** Collaborators *)

(** A figure is known by its name only. *)
Definition Figure : Type := string.

(** The descriptor kinds [analysis coloratom] accepts, and the kinds of
    configuration [init] accepts. *)
Inductive ColorKind : Type := KCircus | KMorgan | KRdkfp.
Inductive InitKind : Type := ICircus | IRdkit | IComplex.

(** Everything [main.py] calls and does not define: the parsers of pandas,
    json and pickle, the descriptor classes of [doptools.chem], and the
    figure a [ColorAtom] draws.  An object that a method changes in place
    is passed through: [circus_fit] returns the fitted object.
    [savefig_name] is the name of the file matplotlib's [Figure.savefig]
    writes when it is given a name, or its refusal of the format the name
    asks for. *)
Record Collab : Type := mkCollab {
  read_csv : gmap string FileContent -> string -> string -> result DataFrame;
  json_load : FileContent -> result Json;
  Model : Type;
  pickle_load : FileContent -> result Model;
  Circus : Type;
  ChythonCircus : Z -> Z -> option bool -> string -> result Circus;
  circus_fit : Circus -> list Cell -> result Circus;
  circus_transform : Circus -> list Cell -> result DataFrame;
  Fp : Type;
  Fingerprinter : string -> Z -> option Z -> string -> result Fp;
  fp_transform : Fp -> list Cell -> result DataFrame;
  Fragmentor : Type;
  ComplexFragmentor : Json -> result Fragmentor;
  fragmentor_transform : Fragmentor -> DataFrame -> result DataFrame;
  Painter : Type;
  ColorAtom : Model -> Circus + Fp -> result Painter;
  explain : Painter -> string -> result Figure;
  savefig_name : string -> result string;
  fig_show : Figure -> result unit;
  import_version : string -> result string;
  doptools_version : option string;
  python_version : string;
  platform_name : string
}.

(** ** The commands of [main.py] *)

Section Commands.

Variable E : Collab.

(** [except Exception as e: raise click.ClickException(f"{what}: {str(e)}")] *)
Definition wrap {A} (what : string) (e : Exn) : M A :=
  raise (ClickException (what +:+ ": " +:+ str e)).

(** [len(df)] and [df.shape[1]] *)
Definition len (df : DataFrame) : Z := Z.of_nat (nrows df).
Definition width (df : DataFrame) : Z := Z.of_nat (length (columns df)).

(** [pd.read_csv(path, sep=separator)] *)
Definition pd_read_csv (path separator : string) : M DataFrame :=
  fun w => call (EvReadCsv path separator) (read_csv E (files w) path separator) w.

(** [df.to_csv(path, index=False)] *)
Definition to_csv (df : DataFrame) (path : string) : M unit :=
  log (EvToCsv path) >> write_file path (csv_of df).

(** The block both single-column commands share:
    [if id_column in df.columns: t.insert(0, 'ID', df[id_column])]
    [else: t.insert(0, 'ID', range(len(t)))] *)
Definition add_ids (df : DataFrame) (id_column : string) (t : DataFrame)
  : M DataFrame :=
  if has_column id_column df then
    let! ids := lift (getitem df id_column) in
    lift (df_insert 0 "ID" (FromSeries (index df) ids) t)
  else
    lift (df_insert 0 "ID" (FromRange (nrows t)) t).

Definition circus_body (input_file output_file smiles_column id_column : string)
    (lower upper : Z) (on_bond : bool) (separator : string) (verbose : bool)
  : M unit :=
  when verbose (echo ("Loading data from " +:+ input_file +:+ "...")) >>
  let! df := pd_read_csv input_file separator in
  (if has_column smiles_column df then ret tt
   else raise (ClickException
                 ("Column '" +:+ smiles_column +:+ "' not found in input file"))) >>
  when verbose
    (echo ("Loaded " +:+ str_int (len df) +:+ " molecules") >>
     echo ("Calculating CircuS descriptors (radius " +:+ str_int lower +:+ "-"
           +:+ str_int upper +:+ ")...")) >>
  let! circus_calc :=
    call (EvNew "ChythonCircus") (ChythonCircus E lower upper (Some on_bond) "smiles") in
  let! smiles_data := lift (getitem df smiles_column) in
  let! circus_calc := call (EvFit smiles_data) (circus_fit E circus_calc smiles_data) in
  let! descriptors :=
    call (EvTransform smiles_data) (circus_transform E circus_calc smiles_data) in
  let! descriptors := add_ids df id_column descriptors in
  to_csv descriptors output_file >>
  when verbose
    (echo ("Calculated " +:+ str_int (width descriptors - 1) +:+ " descriptors") >>
     echo ("Results saved to " +:+ output_file)).

(** [descriptors circus] *)
Definition circus (input_file output_file smiles_column id_column : string)
    (lower upper : Z) (on_bond : bool) (separator : string) (verbose : bool)
  : M unit :=
  try_except
    (circus_body input_file output_file smiles_column id_column lower upper
       on_bond separator verbose)
    (wrap "Error calculating CircuS descriptors").

Definition rdkit_body (input_file output_file smiles_column id_column fp_type : string)
    (nbits radius : Z) (separator : string) (verbose : bool) : M unit :=
  when verbose (echo ("Loading data from " +:+ input_file +:+ "...")) >>
  let! df := pd_read_csv input_file separator in
  (if has_column smiles_column df then ret tt
   else raise (ClickException
                 ("Column '" +:+ smiles_column +:+ "' not found in input file"))) >>
  when verbose
    (echo ("Loaded " +:+ str_int (len df) +:+ " molecules") >>
     echo ("Calculating " +:+ fp_type +:+ " descriptors...")) >>
  let! fingerprinter :=
    call (EvNew "Fingerprinter") (Fingerprinter E fp_type nbits (Some radius) "smiles") in
  let! smiles_data := lift (getitem df smiles_column) in
  let! descriptors :=
    call (EvTransform smiles_data) (fp_transform E fingerprinter smiles_data) in
  let desc_df := descriptors in   (* [pd.DataFrame(descriptors)] *)
  let! desc_df := add_ids df id_column desc_df in
  to_csv desc_df output_file >>
  when verbose
    (echo ("Calculated " +:+ str_int (width desc_df - 1) +:+ " descriptors") >>
     echo ("Results saved to " +:+ output_file)).

(** [descriptors rdkit] *)
Definition rdkit (input_file output_file smiles_column id_column fp_type : string)
    (nbits radius : Z) (separator : string) (verbose : bool) : M unit :=
  try_except
    (rdkit_body input_file output_file smiles_column id_column fp_type nbits
       radius separator verbose)
    (wrap "Error calculating RDKit descriptors").

Definition complex_body (config_file input_file output_file separator : string)
    (verbose : bool) : M unit :=
  when verbose (echo ("Loading configuration from " +:+ config_file +:+ "...")) >>
  let! f := open_r config_file in
  let! config := call (EvJsonLoad config_file) (json_load E f) in
  when verbose (echo ("Loading data from " +:+ input_file +:+ "...")) >>
  let! df := pd_read_csv input_file separator in
  when verbose
    (echo ("Loaded " +:+ str_int (len df) +:+ " rows") >>
     echo "Setting up ComplexFragmentor...") >>
  let! fragmentor := call (EvNew "ComplexFragmentor") (ComplexFragmentor E config) in
  let! descriptors := call (EvTransformTable df) (fragmentor_transform E fragmentor df) in
  to_csv descriptors output_file >>
  when verbose
    (echo ("Calculated " +:+ str_int (width descriptors) +:+ " total descriptors") >>
     echo ("Results saved to " +:+ output_file)).

(** [descriptors complex] *)
Definition complex (config_file input_file output_file separator : string)
    (verbose : bool) : M unit :=
  try_except (complex_body config_file input_file output_file separator verbose)
    (wrap "Error calculating complex descriptors").

Definition optimize_body (config_file : string) (verbose : bool) : M unit :=
  when verbose
    (echo ("Loading optimization configuration from " +:+ config_file +:+ "...")) >>
  let! original_argv := get_sys_argv in
  let! fresh_argv := new_list ["launch_optimizer"; "--config"; config_file] in
  put_sys_argv fresh_argv >>
  (if verbose then
     let! argv := get_sys_argv in list_extend argv ["--verbose"]
   else ret tt) >>
  echo "Optimization functionality to be implemented" >>
  put_sys_argv original_argv.

(** [models optimize] *)
Definition optimize (config_file : string) (verbose : bool) : M unit :=
  try_except (optimize_body config_file verbose)
    (wrap "Error during model optimization").

Definition rebuild_body (input_dir output_dir : string) (verbose : bool) : M unit :=
  when verbose (echo ("Rebuilding models from " +:+ input_dir +:+ "...")) >>
  let! original_argv := get_sys_argv in
  let! fresh_argv :=
    new_list ["rebuilder"; "--input"; input_dir; "--output"; output_dir] in
  put_sys_argv fresh_argv >>
  (if verbose then
     let! argv := get_sys_argv in list_extend argv ["--verbose"]
   else ret tt) >>
  echo "Model rebuilding functionality to be implemented" >>
  put_sys_argv original_argv.

(** [models rebuild] *)
Definition rebuild (input_dir output_dir : string) (verbose : bool) : M unit :=
  try_except (rebuild_body input_dir output_dir verbose)
    (wrap "Error during model rebuilding").

Definition coloratom_body (model_file smiles : string) (descriptor_type : ColorKind)
    (output_file : option string) (show : bool) : M unit :=
  let! f := open_r model_file in
  let! model := call (EvPickleLoad model_file) (pickle_load E f) in
  echo ("Analyzing SMILES: " +:+ smiles) >>
  let! descriptor :=
    match descriptor_type with
    | KCircus =>
        let! descriptor :=
          call (EvNew "ChythonCircus") (ChythonCircus E 0 3 None "smiles") in
        let! descriptor :=
          call (EvFit [CStr smiles]) (circus_fit E descriptor [CStr smiles]) in
        ret (inl descriptor)
    | KMorgan =>
        let! descriptor :=
          call (EvNew "Fingerprinter") (Fingerprinter E "morgan" 1024 None "smiles") in
        ret (inr descriptor)
    | KRdkfp =>
        let! descriptor :=
          call (EvNew "Fingerprinter") (Fingerprinter E "rdkfp" 1024 None "smiles") in
        ret (inr descriptor)
    end in
  let! coloratom := call (EvNew "ColorAtom") (ColorAtom E model descriptor) in
  let! fig := call (EvExplain smiles) (explain E coloratom smiles) in
  (if truthy output_file then
     let path := default EmptyString output_file in
     let! written := call (EvSavefig path) (savefig_name E path) in
     write_file written (FFigure fig 300 "tight") >>
     echo ("Visualization saved to " +:+ path)
   else ret tt) >>
  (if show then call EvShow (fig_show E fig) else ret tt).

(** [analysis coloratom] *)
Definition coloratom (model_file smiles : string) (descriptor_type : ColorKind)
    (output_file : option string) (show : bool) : M unit :=
  try_except (coloratom_body model_file smiles descriptor_type output_file show)
    (wrap "Error creating ColorAtom visualization").

Definition plot_body (input_file plot_type : string)
    (x_column y_column output_file : option string) (show : bool) : M unit :=
  let! original_argv := get_sys_argv in
  let! args := new_list ["plotter"; "--input"; input_file; "--type"; plot_type] in
  (if truthy x_column then list_extend args ["--x-column"; default EmptyString x_column]
   else ret tt) >>
  (if truthy y_column then list_extend args ["--y-column"; default EmptyString y_column]
   else ret tt) >>
  (if truthy output_file then list_extend args ["--output"; default EmptyString output_file]
   else ret tt) >>
  (if show then list_extend args ["--show"] else ret tt) >>
  put_sys_argv args >>
  echo "Plotting functionality to be implemented" >>
  put_sys_argv original_argv.

(** [analysis plot] *)
Definition plot (input_file plot_type : string)
    (x_column y_column output_file : option string) (show : bool) : M unit :=
  try_except (plot_body input_file plot_type x_column y_column output_file show)
    (wrap "Error generating plot").

(** The three documents of [init]. *)
Definition init_config (descriptor_type : InitKind) : Json :=
  match descriptor_type with
  | ICircus =>
      JObj [("name", JStr "CircuS Descriptors");
            ("description", JStr "Basic CircuS molecular descriptors");
            ("descriptor",
             JObj [("type", JStr "circus"); ("lower", JNum 0); ("upper", JNum 3);
                   ("on_bond", JBool false); ("fmt", JStr "smiles")])]
  | IRdkit =>
      JObj [("name", JStr "RDKit Descriptors");
            ("description", JStr "RDKit molecular fingerprints");
            ("descriptor",
             JObj [("type", JStr "rdkit"); ("fp_type", JStr "morgan");
                   ("nBits", JNum 1024); ("radius", JNum 2); ("fmt", JStr "smiles")])]
  | IComplex =>
      JObj [("name", JStr "Complex Multi-Column Descriptors");
            ("description", JStr "ComplexFragmentor for multiple molecular columns");
            ("associator",
             JArr [JArr [JStr "molecules";
                         JObj [("type", JStr "circus"); ("lower", JNum 0);
                               ("upper", JNum 2)]]]);
            ("structure_columns", JArr [JStr "molecules"]);
            ("fmt", JStr "smiles")]
  end.

Definition kind_name (descriptor_type : InitKind) : string :=
  match descriptor_type with
  | ICircus => "circus"
  | IRdkit => "rdkit"
  | IComplex => "complex"
  end.

Definition init_body (descriptor_type : InitKind) (output_file : string) : M unit :=
  let config := init_config descriptor_type in
  log (EvJsonDump output_file) >>
  write_file output_file (FJson config 2) >>
  echo ("Configuration file created: " +:+ output_file) >>
  echo ("Edit this file to customize your " +:+ kind_name descriptor_type +:+ " setup").

(** [init] *)
Definition init (descriptor_type : InitKind) (output_file : string) : M unit :=
  try_except (init_body descriptor_type output_file)
    (wrap "Error creating configuration").

(** [ImportError] and its subclass. *)
Definition is_import_error (e : Exn) : bool :=
  match e with
  | PyError cls _ =>
      String.eqb cls "ImportError" || String.eqb cls "ModuleNotFoundError"
  | ClickException _ => false
  end.

(** [try: import m; echo Available  except ImportError: echo Not available] *)
Definition probe (module : string) : M unit :=
  fun w =>
    match (call (EvImport module) (import_version E module) >>
           echo ("  " +:+ module +:+ ": Available")) w with
    | (Raise e, w') =>
        if is_import_error e then echo ("  " +:+ module +:+ ": Not available") w'
        else (Raise e, w')
    | done => done
    end.

(** [pandas] and [numpy] are loaded with the module (lines 10-11), so the
    two imports of them here find them whenever a command runs at all. *)
Definition info_body : M unit :=
  let! sklearn := call (EvImport "sklearn") (import_version E "sklearn") in
  let! pd := call (EvImport "pandas") (import_version E "pandas") in
  let! np := call (EvImport "numpy") (import_version E "numpy") in
  echo "DOPtools System Information" >>
  echo "==============================" >>
  echo ("DOPtools version: " +:+ default "Unknown" (doptools_version E)) >>
  echo ("Python version: " +:+ python_version E) >>
  echo ("Platform: " +:+ platform_name E) >>
  echo EmptyString >>
  echo "Dependencies:" >>
  echo ("  pandas: " +:+ pd) >>
  echo ("  numpy: " +:+ np) >>
  echo ("  scikit-learn: " +:+ sklearn) >>
  probe "chython" >>
  probe "rdkit".

(** [info] *)
Definition info : M unit :=
  try_except info_body (wrap "Error getting system info").

(** The commands click dispatches to, each with the options it is given. *)
Inductive Command : Type :=
| CmdCircus (input_file output_file smiles_column id_column : string)
    (lower upper : Z) (on_bond : bool) (separator : string) (verbose : bool)
| CmdRdkit (input_file output_file smiles_column id_column fp_type : string)
    (nbits radius : Z) (separator : string) (verbose : bool)
| CmdComplex (config_file input_file output_file separator : string) (verbose : bool)
| CmdOptimize (config_file : string) (verbose : bool)
| CmdRebuild (input_dir output_dir : string) (verbose : bool)
| CmdColoratom (model_file smiles : string) (descriptor_type : ColorKind)
    (output_file : option string) (show : bool)
| CmdPlot (input_file plot_type : string)
    (x_column y_column output_file : option string) (show : bool)
| CmdInit (descriptor_type : InitKind) (output_file : string)
| CmdInfo.

Definition run (c : Command) : M unit :=
  match c with
  | CmdCircus i o s d lo up b sep v => circus i o s d lo up b sep v
  | CmdRdkit i o s d fp n r sep v => rdkit i o s d fp n r sep v
  | CmdComplex c i o sep v => complex c i o sep v
  | CmdOptimize c v => optimize c v
  | CmdRebuild i o v => rebuild i o v
  | CmdColoratom m s d o sh => coloratom m s d o sh
  | CmdPlot i t x y o sh => plot i t x y o sh
  | CmdInit d o => init d o
  | CmdInfo => info
  end.

(** The part of a command inside its [try]. *)
Definition body (c : Command) : M unit :=
  match c with
  | CmdCircus i o s d lo up b sep v => circus_body i o s d lo up b sep v
  | CmdRdkit i o s d fp n r sep v => rdkit_body i o s d fp n r sep v
  | CmdComplex c i o sep v => complex_body c i o sep v
  | CmdOptimize c v => optimize_body c v
  | CmdRebuild i o v => rebuild_body i o v
  | CmdColoratom m s d o sh => coloratom_body m s d o sh
  | CmdPlot i t x y o sh => plot_body i t x y o sh
  | CmdInit d o => init_body d o
  | CmdInfo => info_body
  end.

(** The words its [except] clause puts before the text of the error. *)
Definition operation (c : Command) : string :=
  match c with
  | CmdCircus _ _ _ _ _ _ _ _ _ => "Error calculating CircuS descriptors"
  | CmdRdkit _ _ _ _ _ _ _ _ _ => "Error calculating RDKit descriptors"
  | CmdComplex _ _ _ _ _ => "Error calculating complex descriptors"
  | CmdOptimize _ _ => "Error during model optimization"
  | CmdRebuild _ _ _ => "Error during model rebuilding"
  | CmdColoratom _ _ _ _ _ => "Error creating ColorAtom visualization"
  | CmdPlot _ _ _ _ _ _ => "Error generating plot"
  | CmdInit _ _ => "Error creating configuration"
  | CmdInfo => "Error getting system info"
  end.

End Commands.

(** ** Reference collaborators *)

(** [doptools.chem] and the parsers are not part of [main.py].  The module
    below gives one set of collaborators that behaves as the specification
    describes them, over a stand-in for the chemistry (fragment enumeration
    and fingerprint hashing are left to external libraries by the
    specification).  It is used to run the commands on concrete inputs. *)
Module SpecModel.

(** The notation string of a structure read from a table cell. *)
Definition notation_of (c : Cell) : string :=
  match c with
  | CStr s => s
  | CInt z => str_int z
  | CFloat z => str_int z +:+ ".0"
  | CNaN => "nan"
  end.

(** Stand-in for fragment enumeration: the contiguous pieces of [k]
    characters of a notation string, left to right. *)
Definition windows (k : nat) (s : string) : list string :=
  if bool_decide (1 ≤ k ≤ String.length s)%nat then
    (fun i => String.substring i k s) <$> seq 0 (String.length s - k + 1)
  else [].

(** The fragments of radius [lower..upper] of a structure. *)
Definition fragments (lower upper : nat) (s : string) : list string :=
  concat ((fun r => windows (S r) s) <$> seq lower (upper + 1 - lower)).

(** The distinct elements of a list, in the order they are first seen. *)
Fixpoint first_seen (seen l : list string) : list string :=
  match l with
  | [] => []
  | x :: r =>
      if bool_decide (x ∈ seen) then first_seen seen r
      else x :: first_seen (x :: seen) r
  end.

(** Modelled from the spec: the substructure descriptor of section 4.2
    ([ChythonCircus] of [doptools.chem], absent from the sources): its
    parameters and, once fit, its vocabulary. *)
Record CircusObj : Type := mkCircus {
  c_lower : Z;
  c_upper : Z;
  c_on_bond : bool;
  vocabulary : option (list string)
}.

(** Modelled from the spec: construction checks [lower <= upper], both
    non-negative, and fails with [InvalidConfigError] otherwise. *)
Definition new_circus (lower upper : Z) (on_bond : option bool) (fmt : string)
  : result CircusObj :=
  if bool_decide (0 ≤ lower ∧ lower ≤ upper)%Z then
    Ok (mkCircus lower upper (default false on_bond) None)
  else Raise (PyError "InvalidConfigError" "radius bounds must satisfy 0 <= lower <= upper").

(** The fragments a descriptor object enumerates in one structure. *)
Definition fragments_of (c : CircusObj) (x : Cell) : list string :=
  fragments (Z.to_nat (c_lower c)) (Z.to_nat (c_upper c)) (notation_of x).

(** Modelled from the spec: [fit] scans every structure and records the
    distinct fragments met, in first-seen order, replacing any earlier
    vocabulary. *)
Definition fit (c : CircusObj) (xs : list Cell) : result CircusObj :=
  Ok (mkCircus (c_lower c) (c_upper c) (c_on_bond c)
        (Some (first_seen [] (concat (fragments_of c <$> xs))))).

(** Modelled from the spec: [transform] gives one row per structure and one
    column per vocabulary entry, holding the occurrence count of that
    fragment; fragments outside the vocabulary are ignored; before [fit] it
    fails with [UnfitTransformerError]. *)
Definition transform (c : CircusObj) (xs : list Cell) : result DataFrame :=
  match vocabulary c with
  | None => Raise (PyError "UnfitTransformerError" "transform called before fit")
  | Some voc =>
      Ok (mkDF (length xs)
            ((fun f => (f, (fun x => CInt (Z.of_nat
                              (count_occ String.string_dec (fragments_of c x) f)))
                           <$> xs)) <$> voc))
  end.

(** Modelled from the spec: the fingerprint descriptor of section 4.2
    ([Fingerprinter] of [doptools.chem]): stateless beyond its parameters. *)
Record FpObj : Type := mkFp {
  fp_type : string;
  nBits : Z;
  fp_radius : Z
}.

(** Modelled from the spec: construction checks [nBits > 0] and
    [radius >= 0]. *)
Definition new_fp (fp_type : string) (nBits : Z) (radius : option Z) (fmt : string)
  : result FpObj :=
  if bool_decide (0 < nBits ∧ 0 ≤ default 2 radius)%Z then
    Ok (mkFp fp_type nBits (default 2 radius))
  else Raise (PyError "InvalidConfigError" "nBits must be positive and radius non-negative").

(** Stand-in for fingerprint hashing: bit [j] is set when a character of
    the notation has code [j] modulo the width. *)
Definition bit (width : nat) (s : string) (j : nat) : Cell :=
  if bool_decide (Exists (fun a => Ascii.nat_of_ascii a mod width = j)%nat
                    (String.list_ascii_of_string s))
  then CInt 1 else CInt 0.

(** Modelled from the spec: a vector of exactly [nBits] columns per
    structure. *)
Definition fingerprints (f : FpObj) (xs : list Cell) : result DataFrame :=
  let width := Z.to_nat (nBits f) in
  Ok (mkDF (length xs)
        ((fun j => (str_int (Z.of_nat j),
                    (fun x => bit width (notation_of x) j) <$> xs)) <$> seq 0 width)).

(** Modelled from the spec: a transformer specification is a variant tag
    and a parameter mapping (section 3); the tags and parameter names are
    those of the documents [init] writes. *)
Inductive Inner : Type :=
| InCircus (c : CircusObj)
| InFp (f : FpObj).

(** The parameters of a specification, with a default when absent. *)
Definition num_param (key : string) (spec : Json) (dflt : Z) : Z :=
  match json_get key spec with Some (JNum z) => z | _ => dflt end.
Definition str_param (key : string) (spec : Json) (dflt : string) : string :=
  match json_get key spec with Some (JStr s) => s | _ => dflt end.
Definition bool_param (key : string) (spec : Json) : option bool :=
  match json_get key spec with Some (JBool b) => Some b | _ => None end.

(** Modelled from the spec: one transformer is constructed from its
    specification by the rules of section 4.2, selected by its tag. *)
Definition build_inner (spec : Json) : result Inner :=
  let tag := str_param "type" spec EmptyString in
  if String.eqb tag "circus" then
    match new_circus (num_param "lower" spec 0) (num_param "upper" spec 3)
            (bool_param "on_bond" spec) (str_param "fmt" spec "smiles") with
    | Ok c => Ok (InCircus c)
    | Raise e => Raise e
    end
  else if String.eqb tag "rdkit" then
    match new_fp (str_param "fp_type" spec "morgan") (num_param "nBits" spec 1024)
            (Some (num_param "radius" spec 2)) (str_param "fmt" spec "smiles") with
    | Ok f => Ok (InFp f)
    | Raise e => Raise e
    end
  else Raise (PyError "InvalidConfigError" ("unknown transformer type '" +:+ tag +:+ "'")).

(** Modelled from the spec: an entry of [associator] is a pair of a column
    name and a transformer specification. *)
Definition build_pair (item : Json) : result (string * Inner) :=
  match item with
  | JArr [JStr col; spec] =>
      match build_inner spec with
      | Ok i => Ok (col, i)
      | Raise e => Raise (PyError "InvalidConfigError" (col +:+ ": " +:+ str e))
      end
  | _ => Raise (PyError "InvalidConfigError" "an associator entry must be a [column, spec] pair")
  end.

(** The values and the error texts of a list of results. *)
Definition oks {A} (rs : list (result A)) : list A :=
  omap (fun r => match r with Ok a => Some a | Raise _ => None end) rs.
Definition errors {A} (rs : list (result A)) : list string :=
  omap (fun r => match r with Ok _ => None | Raise e => Some (str e) end) rs.

(** Modelled from the spec: the composite transformer of section 4.3
    ([ComplexFragmentor] of [doptools.chem]). *)
Record FragObj : Type := mkFrag {
  associator : list (string * Inner);
  structure_columns : list string
}.

(** Modelled from the spec: every declared column gets its inner
    transformer; the construction errors of all columns are reported
    together as one [InvalidConfigError]. *)
Definition new_fragmentor (config : Json) : result FragObj :=
  match json_get "associator" config with
  | Some (JArr items) =>
      let built := build_pair <$> items in
      match errors built with
      | [] => Ok (mkFrag (oks built)
                    (match json_get "structure_columns" config with
                     | Some (JArr cs) =>
                         omap (fun c => match c with JStr s => Some s | _ => None end) cs
                     | _ => []
                     end))
      | errs => Raise (PyError "InvalidConfigError" (String.concat "; " errs))
      end
  | _ => Raise (PyError "InvalidConfigError" "the configuration has no associator list")
  end.

(** Modelled from the spec: the transform of an inner transformer. *)
Definition inner_transform (i : Inner) (xs : list Cell) : result DataFrame :=
  match i with
  | InCircus c => transform c xs
  | InFp f => fingerprints f xs
  end.

(** Modelled from the spec: feature names are prefixed with the source
    column, [c1__*]. *)
Definition prefixed (col : string) (t : DataFrame) : list (string * list Cell) :=
  (fun c => (col +:+ "__" +:+ c.1, c.2)) <$> columns t.

(** Modelled from the spec: each declared column is transformed on its
    own and the tables are put side by side, every feature name prefixed
    with its source column; a declared column absent from the table is a
    [MissingColumnError]. *)
Fixpoint transform_columns (assoc : list (string * Inner)) (table : DataFrame)
  : result (list (string * list Cell)) :=
  match assoc with
  | [] => Ok []
  | (col, inner) :: rest =>
      match lookup_col col (columns table) with
      | None => Raise (PyError "MissingColumnError"
                         ("column '" +:+ col +:+ "' is not in the input table"))
      | Some xs =>
          match inner_transform inner xs with
          | Raise e => Raise e
          | Ok t =>
              match transform_columns rest table with
              | Raise e => Raise e
              | Ok cols => Ok (prefixed col t ++ cols)
              end
          end
      end
  end.

(** Modelled from the spec: the composite feature table has the rows of
    the input table. *)
Definition frag_transform (f : FragObj) (table : DataFrame) : result DataFrame :=
  match transform_columns (associator f) table with
  | Ok cols => Ok (mkDF (nrows table) cols)
  | Raise e => Raise e
  end.

(** Modelled from the spec: [load(path, separator)] of section 4.1 gives
    the table of a delimited file, its columns named by the header line,
    and fails with [FileFormatError] when the file cannot be parsed with
    that separator. *)
Definition frame_of (header : list string) (rows : list (list Cell)) : DataFrame :=
  mkDF (length rows)
    ((fun j => (default EmptyString (header !! j),
                (fun r => default CNaN (r !! j)) <$> rows))
       <$> seq 0 (length header)).

(** Modelled from the spec: [load] of section 4.1. *)
Definition load (fs : gmap string FileContent) (path separator : string)
  : result DataFrame :=
  match fs !! path with
  | None => Raise (PyError "FileNotFoundError"
              ("[Errno 2] No such file or directory: '" +:+ path +:+ "'"))
  | Some (FCsv sep header rows) =>
      if String.eqb sep separator then Ok (frame_of header rows)
      else Raise (PyError "FileFormatError" "the file does not parse with the given separator")
  | Some _ => Raise (PyError "FileFormatError" "the file is not a delimited table")
  end.

(** [json.load] gives the document of a JSON file and fails on any other. *)
Definition parse_json (c : FileContent) : result Json :=
  match c with
  | FJson doc _ => Ok doc
  | _ => Raise (PyError "JSONDecodeError" "Expecting value: line 1 column 1 (char 0)")
  end.

(** [pickle.load] gives the model of a pickle file, known by its bytes. *)
Definition unpickle (c : FileContent) : result string :=
  match c with
  | FBlob b => Ok b
  | _ => Raise (PyError "UnpicklingError" "invalid load key")
  end.

(** Stand-in for the attribution collaborator: the figure is named after
    the structure it depicts. *)
Definition draw (p : string * (CircusObj + FpObj)) (smiles : string) : result Figure :=
  Ok ("atom contributions of " +:+ smiles).

(** [os.path.splitext(name)[1]] without its dot: what follows the last
    dot of the last component of the path, the dots the component begins
    with apart. *)
Definition slash : Ascii.ascii := Ascii.ascii_of_nat 47.
Definition dot : Ascii.ascii := Ascii.ascii_of_nat 46.

Definition last_component (cs : list Ascii.ascii) : list Ascii.ascii :=
  fold_left (fun acc c => if Ascii.eqb c slash then [] else acc ++ [c]) cs [].

Fixpoint without_leading_dots (cs : list Ascii.ascii) : list Ascii.ascii :=
  match cs with
  | c :: rest => if Ascii.eqb c dot then without_leading_dots rest else cs
  | [] => []
  end.

Definition after_last_dot (cs : list Ascii.ascii) : option (list Ascii.ascii) :=
  fold_left (fun acc c => if Ascii.eqb c dot then Some []
                          else (fun e => e ++ [c]) <$> acc) cs None.

Definition extension (name : string) : string :=
  match after_last_dot
          (without_leading_dots
             (last_component (String.list_ascii_of_string name))) with
  | Some e => String.string_of_list_ascii e
  | None => EmptyString
  end.

(** [name.rstrip('.')] *)
Definition rstrip_dots (name : string) : string :=
  String.string_of_list_ascii
    (reverse (without_leading_dots (reverse (String.list_ascii_of_string name)))).

(** [s.lower()] on the letters A-Z. *)
Definition lower_ascii (c : Ascii.ascii) : Ascii.ascii :=
  let n := Ascii.nat_of_ascii c in
  if bool_decide (65 ≤ n ≤ 90)%nat then Ascii.ascii_of_nat (n + 32) else c.

Definition lower (s : string) : string :=
  String.string_of_list_ascii (lower_ascii <$> String.list_ascii_of_string s).

(** The formats matplotlib's default canvas writes. *)
Definition figure_formats : list string :=
  ["eps"; "jpeg"; "jpg"; "pdf"; "pgf"; "png"; "ps"; "raw"; "rgba"; "svg";
   "svgz"; "tif"; "tiff"; "webp"].

(** matplotlib's [print_figure]: the format is the extension of the name;
    a name without one gets the default format, [png], and the file is the
    name without its trailing dots, with [.png] behind; a format that is
    not known is refused with [ValueError]. *)
Definition figure_file (name : string) : result string :=
  let fmt := extension name in
  if String.eqb fmt EmptyString then Ok (rstrip_dots name +:+ ".png")
  else if bool_decide (lower fmt ∈ figure_formats) then Ok name
  else Raise (PyError "ValueError"
                ("Format '" +:+ lower fmt +:+ "' is not supported (supported formats: "
                 +:+ String.concat ", " figure_formats +:+ ")")).

(** The reference collaborators; every module imports and reports
    version 1.0. *)
Definition collab : Collab :=
  mkCollab load parse_json string unpickle
    CircusObj new_circus fit transform
    FpObj new_fp fingerprints
    FragObj new_fragmentor frag_transform
    (string * (CircusObj + FpObj)) (fun m d => Ok (m, d)) draw figure_file
    (fun _ => Ok tt)
    (fun _ => Ok "1.0") None "3.11.0" "Linux".

(** The same collaborators where a figure cannot be displayed:
    matplotlib's [Figure.show] raises when the figure has no manager. *)
Definition headless : Collab :=
  mkCollab load parse_json string unpickle
    CircusObj new_circus fit transform
    FpObj new_fp fingerprints
    FragObj new_fragmentor frag_transform
    (string * (CircusObj + FpObj)) (fun m d => Ok (m, d)) draw figure_file
    (fun _ => Raise (PyError "AttributeError"
                       "Figure.show works only for figures managed by pyplot"))
    (fun _ => Ok "1.0") None "3.11.0" "Linux".

(** The default separator of the commands. *)
Definition tab : string := String (Ascii.ascii_of_nat 9) EmptyString.

(** A world with nothing in it but the list [sys.argv] is bound to. *)
Definition world (fs : gmap string FileContent) : World :=
  mkWorld fs ∅ [["doptools"]] 0 [] [].

(** The table of the specification's scenario: two molecules with ids. *)
Definition two_molecules : FileContent :=
  FCsv tab ["ID"; "SMILES"]
    [[CStr "m1"; CStr "CCO"]; [CStr "m2"; CStr "CCC"]].

(** The same molecules in a table without an id column. *)
Definition no_ids : FileContent :=
  FCsv tab ["SMILES"] [[CStr "CCO"]; [CStr "CCC"]].

(** A table without the structure column. *)
Definition no_smiles : FileContent :=
  FCsv tab ["ID"; "name"] [[CStr "m1"; CStr "ethanol"]].

(** A composite configuration over one column with a 4-bit fingerprint. *)
Definition fp_config : Json :=
  JObj [("associator",
         JArr [JArr [JStr "molecules";
                     JObj [("type", JStr "rdkit"); ("fp_type", JStr "morgan");
                           ("nBits", JNum 4); ("radius", JNum 2)]]]);
        ("structure_columns", JArr [JStr "molecules"]);
        ("fmt", JStr "smiles")].

Definition molecules_table : FileContent :=
  FCsv tab ["molecules"] [[CStr "CCO"]; [CStr "CCC"]].

(** The worlds of the runs at the end of the file. *)
Definition with_ids_table : World := world {[ "molecules.tsv" := two_molecules ]}.
Definition without_ids_table : World := world {[ "molecules.tsv" := no_ids ]}.

(** A composite configuration that declares the column [SMILES]. *)
Definition smiles_config : Json :=
  JObj [("associator",
         JArr [JArr [JStr "SMILES";
                     JObj [("type", JStr "rdkit"); ("nBits", JNum 4)]]]);
        ("structure_columns", JArr [JStr "SMILES"]);
        ("fmt", JStr "smiles")].

Definition without_smiles_table : World :=
  world {[ "molecules.tsv" := no_smiles; "config.json" := FJson smiles_config 2 ]}.

Definition composite_table : World :=
  world {[ "molecules.tsv" := molecules_table; "config.json" := FJson fp_config 2 ]}.

Definition with_model : World := world {[ "model.pkl" := FBlob "model" ]}.

End SpecModel.

(** ** The vocabulary of the properties *)

(** [needle in text] *)
Definition contains (needle text : string) : Prop :=
  ∃ before after, text = before +:+ needle +:+ after.

(** The commands that stand in for another entry point and lend it
    [sys.argv]. *)
Definition lends_argv (c : Command) : bool :=
  match c with
  | CmdOptimize _ _ | CmdRebuild _ _ _ | CmdPlot _ _ _ _ _ _ => true
  | _ => false
  end.

(** The list [sys.argv] holds, if it is bound to a list. *)
Definition argv_value (w : World) : option (list string) := heap w !! sys_argv w.

(** A transformer specification: an object with a [type] tag that names
    the variant. *)
Definition is_transformer_spec (j : Json) : Prop :=
  ∃ members kind,
    j = JObj members ∧ members_get "type" members = Some (JStr kind) ∧
    kind ≠ EmptyString.

(** An ordered list of [[column-name, transformer-spec]] pairs, one at
    least. *)
Definition is_pair_list (j : Json) : Prop :=
  ∃ items, j = JArr items ∧ items ≠ [] ∧
    Forall (fun it => ∃ col spec, it = JArr [JStr col; spec] ∧
                        col ≠ EmptyString ∧ is_transformer_spec spec) items.

(** A list of column names, one at least. *)
Definition is_name_list (j : Json) : Prop :=
  ∃ items, j = JArr items ∧ items ≠ [] ∧
    Forall (fun it => ∃ name, it = JStr name ∧ name ≠ EmptyString) items.

(** A string that is not empty. *)
Definition is_text (j : Json) : Prop := ∃ s, j = JStr s ∧ s ≠ EmptyString.

(** The cells of the first column of the data lines of a file. *)
Definition first_cells (rows : list (list Cell)) : list Cell :=
  (fun r => default CNaN (head r)) <$> rows.

(** The id block of the single-column commands, as a function. *)
Definition with_ids (df : DataFrame) (id_column : string) (t : DataFrame)
  : result DataFrame :=
  if has_column id_column df then
    match getitem df id_column with
    | Ok ids => df_insert 0 "ID" (FromSeries (index df) ids) t
    | Raise e => Raise e
    end
  else df_insert 0 "ID" (FromRange (nrows t)) t.

(** What a run did: the calls it added to the log. *)
Definition made_calls (w w1 : World) (made : list Event) : Prop :=
  calls w1 = calls w ++ made.

(** The calls that write a file: [to_csv], [json.dump] and [savefig]. *)
Definition is_write (ev : Event) : bool :=
  match ev with
  | EvToCsv _ | EvJsonDump _ | EvSavefig _ => true
  | _ => false
  end.

(** [needle in text], computed. *)
Fixpoint starts_with (needle text : string) : bool :=
  match needle, text with
  | EmptyString, _ => true
  | String a needle', String b text' => Ascii.eqb a b && starts_with needle' text'
  | String _ _, EmptyString => false
  end.

Fixpoint occurs (needle text : string) : bool :=
  starts_with needle text ||
  match text with
  | EmptyString => false
  | String _ text' => occurs needle text'
  end.

(** The specification's invariant of a feature table: one row per input
    structure (per row of the table, for the composite transformer). *)
Definition one_row_per_structure (E : Collab) : Prop :=
  (∀ c xs t, circus_transform E c xs = Ok t → nrows t = length xs) ∧
  (∀ f xs t, fp_transform E f xs = Ok t → nrows t = length xs) ∧
  (∀ f df t, fragmentor_transform E f df = Ok t → nrows t = nrows df).

(** The steps of [descriptors circus] and of [descriptors rdkit], in the
    order of the source: load, construct, (fit,) transform, write. *)
Definition circus_steps (input_file separator : string) (xs : list Cell)
    (output_file : string) : list Event :=
  [EvReadCsv input_file separator; EvNew "ChythonCircus"; EvFit xs;
   EvTransform xs; EvToCsv output_file].

Definition rdkit_steps (input_file separator : string) (xs : list Cell)
    (output_file : string) : list Event :=
  [EvReadCsv input_file separator; EvNew "Fingerprinter"; EvTransform xs;
   EvToCsv output_file].

(** The structures a single-column command takes from the table it loads;
    none when the table or the column cannot be read. *)
Definition loaded_structures (E : Collab) (w : World)
    (input_file separator smiles_column : string) : list Cell :=
  match read_csv E (files w) input_file separator with
  | Ok df => match getitem df smiles_column with Ok xs => xs | Raise _ => [] end
  | Raise _ => []
  end.

(** The calls of [analysis coloratom] with the circus descriptor, up to the
    explanation. *)
Definition circus_explain_calls (model_file smiles : string) : list Event :=
  [EvPickleLoad model_file; EvNew "ChythonCircus"; EvFit [CStr smiles];
   EvNew "ColorAtom"; EvExplain smiles].

(** The outcome of a command that stops over a column the table lacks:
    a non-zero exit status, one message that contains the column name, and
    the files as they were. *)
Definition fails_naming (col : string) (w : World) (o : Outcome) : Prop :=
  exit_code o ≠ 0 ∧
  (∃ msg, stderr o = [msg] ∧ contains col msg) ∧
  files (final o) = files w.

(** ** More vocabulary and collaborators *)


(** An option as the commands see it: given, and not the empty string. *)
Definition given (o : option string) : option string :=
  if truthy o then o else None.

(** The lines the descriptor commands echo in verbose mode around the
    computation. *)
Definition circus_lines (input_file output_file : string) (lower upper : Z)
    (rows features : nat) : list string :=
  ["Loading data from " +:+ input_file +:+ "...";
   "Loaded " +:+ str_int (Z.of_nat rows) +:+ " molecules";
   "Calculating CircuS descriptors (radius " +:+ str_int lower +:+ "-"
     +:+ str_int upper +:+ ")...";
   "Calculated " +:+ str_int (Z.of_nat features) +:+ " descriptors";
   "Results saved to " +:+ output_file].

Definition rdkit_lines (input_file output_file fp_type : string)
    (rows features : nat) : list string :=
  ["Loading data from " +:+ input_file +:+ "...";
   "Loaded " +:+ str_int (Z.of_nat rows) +:+ " molecules";
   "Calculating " +:+ fp_type +:+ " descriptors...";
   "Calculated " +:+ str_int (Z.of_nat features) +:+ " descriptors";
   "Results saved to " +:+ output_file].

Definition complex_lines (config_file input_file output_file : string)
    (rows features : nat) : list string :=
  ["Loading configuration from " +:+ config_file +:+ "...";
   "Loading data from " +:+ input_file +:+ "...";
   "Loaded " +:+ str_int (Z.of_nat rows) +:+ " rows";
   "Setting up ComplexFragmentor...";
   "Calculated " +:+ str_int (Z.of_nat features) +:+ " total descriptors";
   "Results saved to " +:+ output_file].

(** The lines of [info] before the two probes. *)
Definition info_lines (E : Collab) (sklearn pd np : string) : list string :=
  ["DOPtools System Information";
   "==============================";
   "DOPtools version: " +:+ default "Unknown" (doptools_version E);
   "Python version: " +:+ python_version E;
   "Platform: " +:+ platform_name E;
   EmptyString;
   "Dependencies:";
   "  pandas: " +:+ pd;
   "  numpy: " +:+ np;
   "  scikit-learn: " +:+ sklearn].

(** The line a probe of [info] ends with. *)
Definition probe_line (E : Collab) (module : string) : option string :=
  match import_version E module with
  | Ok _ => Some ("  " +:+ module +:+ ": Available")
  | Raise e =>
      if is_import_error e then Some ("  " +:+ module +:+ ": Not available")
      else None
  end.

Module Variants.



(** Collaborators of a machine without rdkit. *)
Definition without_rdkit : Collab :=
  mkCollab SpecModel.load SpecModel.parse_json string SpecModel.unpickle
    SpecModel.CircusObj SpecModel.new_circus SpecModel.fit SpecModel.transform
    SpecModel.FpObj SpecModel.new_fp SpecModel.fingerprints
    SpecModel.FragObj SpecModel.new_fragmentor SpecModel.frag_transform
    (string * (SpecModel.CircusObj + SpecModel.FpObj)) (fun m d => Ok (m, d))
    SpecModel.draw SpecModel.figure_file
    (fun _ => Ok tt)
    (fun m => if String.eqb m "rdkit"
              then Raise (PyError "ModuleNotFoundError" "No module named 'rdkit'")
              else Ok "1.0")
    None "3.11.0" "Linux".

(** Collaborators of a machine without scikit-learn. *)
Definition without_sklearn : Collab :=
  mkCollab SpecModel.load SpecModel.parse_json string SpecModel.unpickle
    SpecModel.CircusObj SpecModel.new_circus SpecModel.fit SpecModel.transform
    SpecModel.FpObj SpecModel.new_fp SpecModel.fingerprints
    SpecModel.FragObj SpecModel.new_fragmentor SpecModel.frag_transform
    (string * (SpecModel.CircusObj + SpecModel.FpObj)) (fun m d => Ok (m, d))
    SpecModel.draw SpecModel.figure_file
    (fun _ => Ok tt)
    (fun m => if String.eqb m "sklearn"
              then Raise (PyError "ModuleNotFoundError" "No module named 'sklearn'")
              else Ok "1.0")
    None "3.11.0" "Linux".

(** Collaborators whose transformers hand their table back with an [ID]
    column already in front. *)
Definition numbered (r : result DataFrame) : result DataFrame :=
  match r with
  | Ok t => Ok (mkDF (nrows t) (("ID", range_cells (nrows t)) :: columns t))
  | Raise e => Raise e
  end.

Definition identified : Collab :=
  mkCollab SpecModel.load SpecModel.parse_json string SpecModel.unpickle
    SpecModel.CircusObj SpecModel.new_circus SpecModel.fit
    (fun c xs => numbered (SpecModel.transform c xs))
    SpecModel.FpObj SpecModel.new_fp
    (fun f xs => numbered (SpecModel.fingerprints f xs))
    SpecModel.FragObj SpecModel.new_fragmentor SpecModel.frag_transform
    (string * (SpecModel.CircusObj + SpecModel.FpObj)) (fun m d => Ok (m, d))
    SpecModel.draw SpecModel.figure_file
    (fun _ => Ok tt)
    (fun _ => Ok "1.0") None "3.11.0" "Linux".









(** Collaborators whose composite transformer reports a missing column
    without its name. *)
Definition terse_transform (f : SpecModel.FragObj) (table : DataFrame)
  : result DataFrame :=
  if forallb (fun c => has_column c.1 table) (SpecModel.associator f)
  then SpecModel.frag_transform f table
  else Raise (PyError "MissingColumnError"
                "a declared column is not in the input table").

Definition terse : Collab :=
  mkCollab SpecModel.load SpecModel.parse_json string SpecModel.unpickle
    SpecModel.CircusObj SpecModel.new_circus SpecModel.fit SpecModel.transform
    SpecModel.FpObj SpecModel.new_fp SpecModel.fingerprints
    SpecModel.FragObj SpecModel.new_fragmentor terse_transform
    (string * (SpecModel.CircusObj + SpecModel.FpObj)) (fun m d => Ok (m, d))
    SpecModel.draw SpecModel.figure_file
    (fun _ => Ok tt)
    (fun _ => Ok "1.0") None "3.11.0" "Linux".


End Variants.

(** * Properties *)

(** ** Running a command body step by step *)

Ltac unfold_monad :=
  unfold try_except, wrap, pd_read_csv, to_csv, call, when, bind,
    log, lift, ret, raise, echo, open_r, write_file, new_list, list_extend,
    get_sys_argv, put_sys_argv in *.

Lemma string_app_assoc (a b c : string) : (a +:+ b) +:+ c = a +:+ (b +:+ c).
Proof.
  induction a as [|x a IH]; [done|].
  change (String x ((a +:+ b) +:+ c) = String x (a +:+ (b +:+ c))). by f_equal.
Qed.

Lemma contains_app_r (needle a b : string) : contains needle b → contains needle (a +:+ b).
Proof.
  intros (p & q & ->). exists (a +:+ p), q. by rewrite string_app_assoc.
Qed.

Lemma contains_app_l (needle a b : string) : contains needle a → contains needle (a +:+ b).
Proof.
  intros (p & q & ->). exists p, (q +:+ b). by rewrite !string_app_assoc.
Qed.

Lemma contains_refl (s : string) : contains s s.
Proof.
  exists EmptyString, EmptyString.
  change (s = s +:+ EmptyString).
  induction s as [|x s IH]; [done|].
  change (String x s = String x (s +:+ EmptyString)). by f_equal.
Qed.

Lemma starts_with_app (needle rest : string) : starts_with needle (needle +:+ rest) = true.
Proof.
  induction needle as [|a needle IH]; [done|].
  change (starts_with (String a needle) (String a (needle +:+ rest)) = true).
  simpl. by rewrite Ascii.eqb_refl.
Qed.

(** The computed test finds every occurrence. *)
Lemma contains_occurs (needle text : string) : contains needle text → occurs needle text = true.
Proof.
  intros (before & after & ->).
  induction before as [|a before IH].
  - change (occurs needle (needle +:+ after) = true).
    destruct (needle +:+ after) eqn:Heq; simpl; rewrite <- ?Heq, starts_with_app; done.
  - change (occurs needle (String a (before +:+ needle +:+ after)) = true).
    simpl. rewrite IH. apply orb_true_r.
Qed.

(** Find the needle among the pieces a text is put together from. *)
Ltac find_text :=
  repeat first [ apply contains_refl
               | apply contains_app_l, contains_refl
               | apply contains_app_r ].

(** ** The verbose flag *)


(** ** The argument vector *)

(** A list object made during a run leaves the older ones as they were. *)
Lemma older_list_kept (h : list (list string)) (l : list string) (r : nat) :
  (r < length h)%nat → (h ++ [l]) !! r = h !! r.
Proof. intros Hr. by rewrite lookup_app_l. Qed.

(** C9: [models optimize], [models rebuild] and [analysis plot] run to
    their end without an exception and leave [sys.argv] bound to the list
    object it was bound to on entry, holding what it held on entry. *)
Theorem argv_restored (E : Collab) (c : Command) (w : World) :
  lends_argv c = true →
  is_Some (argv_value w) →
  ∃ w', run E c w = (Ok tt, w') ∧
        sys_argv w' = sys_argv w ∧
        argv_value w' = argv_value w.
Proof.
  unfold argv_value. intros Hc Hbound.
  apply lookup_lt_is_Some in Hbound.
  destruct c; try discriminate Hc; simpl;
    unfold optimize, optimize_body, rebuild, rebuild_body, plot, plot_body;
    unfold_monad; simpl.
  - destruct verbose; simpl; eexists; (split; [reflexivity|]); simpl;
      (split; [done|]).
    + rewrite list_lookup_alter_ne by lia. by apply older_list_kept.
    + by apply older_list_kept.
  - destruct verbose; simpl; eexists; (split; [reflexivity|]); simpl;
      (split; [done|]).
    + rewrite list_lookup_alter_ne by lia. by apply older_list_kept.
    + by apply older_list_kept.
  - destruct (truthy x_column), (truthy y_column), (truthy output_file), show;
      simpl; eexists; (split; [reflexivity|]); simpl; (split; [done|]);
      rewrite ?length_alter, ?list_lookup_alter_ne by (rewrite ?length_alter; lia);
      by apply older_list_kept.
Qed.

(** ** The configuration document of [init] *)

(** C8: after [init] with descriptor type [complex] has run on an output
    file that can be written, the file holds, with indentation 2, the JSON
    document of the source: its [associator] is the one-element ordered
    list of [[column-name, transformer-spec]] pairs
    [[["molecules", {"type": "circus", "lower": 0, "upper": 2}]]], its
    [structure_columns] the list of column names [["molecules"]], and its
    [fmt] the string ["smiles"]. *)
Theorem init_complex_document (output_file : string) (w : World) :
  output_file ∉ denied w →
  ∃ doc a cs f,
    files (init IComplex output_file w).2 !! output_file = Some (FJson doc 2) ∧
    doc = JObj [("name", JStr "Complex Multi-Column Descriptors");
                ("description",
                 JStr "ComplexFragmentor for multiple molecular columns");
                ("associator", a); ("structure_columns", cs); ("fmt", f)] ∧
    a = JArr [JArr [JStr "molecules";
                    JObj [("type", JStr "circus"); ("lower", JNum 0);
                          ("upper", JNum 2)]]] ∧
    cs = JArr [JStr "molecules"] ∧
    f = JStr "smiles" ∧
    json_get "associator" doc = Some a ∧ is_pair_list a ∧
    json_get "structure_columns" doc = Some cs ∧ is_name_list cs ∧
    json_get "fmt" doc = Some f ∧ is_text f.
Proof.
  intros Hfree. unfold init, init_body. unfold_monad. simpl.
  rewrite bool_decide_eq_false_2 by done. simpl.
  eexists _, _, _, _. split; [by rewrite lookup_insert_eq|].
  split; [reflexivity|]. split; [reflexivity|]. split; [reflexivity|].
  split; [reflexivity|]. split; [reflexivity|]. split.
  { eexists. split; [reflexivity|]. split; [done|].
    repeat constructor. eexists _, _. split; [reflexivity|]. split; [done|].
    eexists _, _. split; [reflexivity|]. by split. }
  split; [reflexivity|]. split.
  { eexists. split; [reflexivity|]. split; [done|].
    repeat constructor. eexists. by split. }
  split; [reflexivity|]. eexists. by split.
Qed.

(** ** Tables: columns, rows and the inserted id column *)

Lemma lookup_col_Some (name : string) (cols : list (string * list Cell)) (v : list Cell) :
  lookup_col name cols = Some v → (name, v) ∈ cols.
Proof.
  induction cols as [|[k c] cols IH]; simpl; [done|].
  destruct (String.eqb_spec k name) as [->|_].
  - intros [= ->]. left.
  - intros H. right. by apply IH.
Qed.

Lemma lookup_col_None (name : string) (cols : list (string * list Cell)) :
  lookup_col name cols = None ↔ name ∉ cols.*1.
Proof.
  induction cols as [|[k c] cols IH]; simpl.
  - split; [intros _; apply not_elem_of_nil | done].
  - rewrite not_elem_of_cons. destruct (String.eqb_spec k name) as [->|Hne].
    + split; [done | by intros [? _]].
    + rewrite IH. split; [by intros ?; split | by intros [_ ?]].
Qed.

Lemma has_column_getitem (name : string) (df : DataFrame) :
  has_column name df = true ↔ ∃ v, getitem df name = Ok v.
Proof.
  unfold has_column, getitem, col_names. rewrite bool_decide_eq_true.
  destruct (lookup_col name (columns df)) as [v|] eqn:Hl.
  - split; [by eexists|]. intros _.
    apply lookup_col_Some in Hl. by apply (list_elem_of_fmap_2 fst) in Hl.
  - apply lookup_col_None in Hl. split; [done | by intros [? ?]].
Qed.

Lemma getitem_length (df : DataFrame) (name : string) (v : Series) :
  well_formed df → getitem df name = Ok v → length v = nrows df.
Proof.
  unfold well_formed, getitem. intros Hwf Hget.
  destruct (lookup_col name (columns df)) as [c|] eqn:Hl; [|done].
  injection Hget as ->. apply lookup_col_Some in Hl.
  rewrite Forall_forall in Hwf. by apply (Hwf _ Hl).
Qed.

(** Reading a list back through its positions gives the list. *)
Lemma positions_read_back (l : list Cell) (n : nat) :
  length l = n → (fun i => default CNaN (l !! i)) <$> seq 0 n = l.
Proof.
  intros <-. apply list_eq. intros i. rewrite list_lookup_fmap.
  destruct (decide (i < length l)%nat) as [Hi|Hi].
  - rewrite lookup_seq_lt by done. simpl.
    destruct (lookup_lt_is_Some_2 l i Hi) as [x Hx]. by rewrite Hx.
  - rewrite lookup_seq_ge by lia. simpl. symmetry. apply lookup_ge_None. lia.
Qed.

Lemma length_range_cells (n : nat) : length (range_cells n) = n.
Proof. unfold range_cells. by rewrite length_fmap, length_seq. Qed.

Lemma nrows_mkDF (n : nat) (cols : list (string * list Cell)) :
  nrows (mkDF n cols) = n.
Proof. apply length_range_cells. Qed.


Lemma length_rows_of (df : DataFrame) : length (rows_of df) = nrows df.
Proof. unfold rows_of. by rewrite length_fmap, length_seq. Qed.

Lemma first_cells_rows_of (idx : list Cell) (c : string) (vals : list Cell)
    (cols : list (string * list Cell)) :
  length vals = length idx →
  first_cells (rows_of (mkFrame idx ((c, vals) :: cols))) = vals.
Proof.
  intros Hn. unfold first_cells, rows_of, row_at, nrows. simpl.
  rewrite <- list_fmap_compose. by apply positions_read_back.
Qed.



Lemma col_names_ensure_valid_index (v : InsertValue) (t : DataFrame) :
  col_names (ensure_valid_index v t) = col_names t.
Proof.
  unfold ensure_valid_index, col_names.
  destruct (index t), (value_index v); try done.
  simpl. by rewrite <- list_fmap_compose.
Qed.

(** The rows of a frame after [_ensure_valid_index]: those it had, or, for
    a frame that had none, those of the value. *)
Lemma nrows_ensure_valid_index (v : InsertValue) (t : DataFrame) :
  nrows (ensure_valid_index v t) = nrows t ∨
  (nrows t = 0%nat ∧ nrows (ensure_valid_index v t) = length (value_index v)).
Proof.
  unfold ensure_valid_index, nrows.
  destruct (index t) eqn:Hi, (value_index v) eqn:Hv; simpl; rewrite ?Hi;
    try (by left); by right.
Qed.

(** What [insert(0, column, value)] gives when it succeeds. *)
Lemma df_insert_front (c : string) (v : InsertValue) (t t' : DataFrame) :
  df_insert 0 c v t = Ok t' →
  ∃ vals, sanitize_column (index (ensure_valid_index v t)) v = Ok vals ∧
          t' = mkFrame (index (ensure_valid_index v t))
                 ((c, vals) :: columns (ensure_valid_index v t)) ∧
          (c ∉ col_names t).
Proof.
  unfold df_insert, has_column. case_bool_decide as Hc; [done|]. cbv zeta.
  destruct (sanitize_column _ v) as [vals|e]; [|done].
  rewrite bool_decide_eq_true_2 by lia. rewrite take_0, drop_0. simpl.
  intros [= <-]. by exists vals.
Qed.

Lemma df_insert_front_ok (c : string) (v : InsertValue) (t : DataFrame) (vals : list Cell) :
  c ∉ col_names t →
  sanitize_column (index (ensure_valid_index v t)) v = Ok vals →
  df_insert 0 c v t
  = Ok (mkFrame (index (ensure_valid_index v t))
          ((c, vals) :: columns (ensure_valid_index v t))).
Proof.
  intros Hc Hv. unfold df_insert, has_column.
  rewrite bool_decide_eq_false_2 by done. cbv zeta. rewrite Hv.
  rewrite bool_decide_eq_true_2 by lia. by rewrite take_0, drop_0.
Qed.

Lemma add_ids_run (df : DataFrame) (id_column : string) (t : DataFrame) (w : World) :
  add_ids df id_column t w = (with_ids df id_column t, w).
Proof.
  unfold add_ids, with_ids. unfold_monad.
  destruct (has_column id_column df); [|done].
  by destruct (getitem df id_column).
Qed.

(** Whichever way the ids come, the table gets a first column [ID] and
    keeps its feature columns, by name, behind it.  It keeps its rows too,
    unless it had none: then it has the rows of the input table. *)
Lemma with_ids_shape (df : DataFrame) (id_column : string) (t t' : DataFrame) :
  with_ids df id_column t = Ok t' →
  ∃ vals cols,
    columns t' = ("ID", vals) :: cols ∧ cols.*1 = col_names t ∧
    (nrows t' = nrows t ∨ (nrows t = 0%nat ∧ nrows t' = nrows df)).
Proof.
  unfold with_ids. intros H.
  destruct (has_column id_column df).
  - destruct (getitem df id_column) as [ids|e]; [|done].
    apply df_insert_front in H as (vals & _ & -> & _).
    eexists _, _. split; [reflexivity|].
    split; [apply col_names_ensure_valid_index|].
    apply nrows_ensure_valid_index.
  - apply df_insert_front in H as (vals & _ & -> & _).
    eexists _, _. split; [reflexivity|].
    split; [apply col_names_ensure_valid_index|].
    left. change (nrows (ensure_valid_index (FromRange (nrows t)) t) = nrows t).
    destruct (nrows_ensure_valid_index (FromRange (nrows t)) t) as [H|[_ H]]; [done|].
    rewrite H. simpl. apply length_range_cells.
Qed.

(** ** What a successful run of a descriptor command went through *)

Lemma circus_ok_inv (E : Collab)
    (input_file output_file smiles_column id_column : string) (lower upper : Z)
    (on_bond : bool) (separator : string) (verbose : bool) (w w' : World) :
  circus E input_file output_file smiles_column id_column lower upper on_bond
    separator verbose w = (Ok tt, w') →
  ∃ df c xs c' t t',
    read_csv E (files w) input_file separator = Ok df ∧
    has_column smiles_column df = true ∧
    ChythonCircus E lower upper (Some on_bond) "smiles" = Ok c ∧
    getitem df smiles_column = Ok xs ∧
    circus_fit E c xs = Ok c' ∧
    circus_transform E c' xs = Ok t ∧
    with_ids df id_column t = Ok t' ∧
    (output_file ∉ denied w) ∧
    files w' = <[output_file := csv_of t']> (files w) ∧
    calls w' = calls w ++ [EvReadCsv input_file separator; EvNew "ChythonCircus";
                           EvFit xs; EvTransform xs; EvToCsv output_file].
Proof.
  unfold circus, circus_body. unfold_monad. intros Hrun.
  destruct verbose; simpl in Hrun.
  all: destruct (read_csv E (files w) input_file separator) as [df|e] eqn:Hread;
    simpl in Hrun; [|done].
  all: destruct (has_column smiles_column df) eqn:Hcol; simpl in Hrun; [|done].
  all: destruct (ChythonCircus E lower upper (Some on_bond) "smiles") as [c|e] eqn:Hnew;
    simpl in Hrun; [|done].
  all: destruct (getitem df smiles_column) as [xs|e] eqn:Hget; simpl in Hrun; [|done].
  all: destruct (circus_fit E c xs) as [c'|e] eqn:Hfit; simpl in Hrun; [|done].
  all: destruct (circus_transform E c' xs) as [t|e] eqn:Htr; simpl in Hrun; [|done].
  all: rewrite add_ids_run in Hrun.
  all: destruct (with_ids df id_column t) as [t'|e] eqn:Hids; simpl in Hrun; [|done].
  all: case_bool_decide; simpl in Hrun; [done|].
  all: injection Hrun as <-; simpl.
  all: exists df, c, xs, c', t, t'; rewrite <- ?app_assoc; simpl; done.
Qed.

Lemma circus_ok_intro (E : Collab)
    (input_file output_file smiles_column id_column : string) (lower upper : Z)
    (on_bond : bool) (separator : string) (verbose : bool) (w : World)
    (df : DataFrame) (c c' : Circus E) (xs : list Cell) (t t' : DataFrame) :
  read_csv E (files w) input_file separator = Ok df →
  has_column smiles_column df = true →
  ChythonCircus E lower upper (Some on_bond) "smiles" = Ok c →
  getitem df smiles_column = Ok xs →
  circus_fit E c xs = Ok c' →
  circus_transform E c' xs = Ok t →
  with_ids df id_column t = Ok t' →
  output_file ∉ denied w →
  ∃ w', circus E input_file output_file smiles_column id_column lower upper
          on_bond separator verbose w = (Ok tt, w') ∧
        files w' = <[output_file := csv_of t']> (files w).
Proof.
  intros Hread Hcol Hnew Hget Hfit Htr Hids Hfree.
  unfold circus, circus_body. unfold_monad.
  destruct verbose; simpl.
  all: rewrite Hread; simpl; rewrite Hcol; simpl; rewrite Hnew; simpl.
  all: rewrite Hget; simpl; rewrite Hfit; simpl; rewrite Htr; simpl.
  all: rewrite add_ids_run, Hids; simpl.
  all: rewrite bool_decide_eq_false_2 by done; simpl.
  all: by eexists.
Qed.

Lemma rdkit_ok_inv (E : Collab)
    (input_file output_file smiles_column id_column fp_type : string)
    (nbits radius : Z) (separator : string) (verbose : bool) (w w' : World) :
  rdkit E input_file output_file smiles_column id_column fp_type nbits radius
    separator verbose w = (Ok tt, w') →
  ∃ df f xs t t',
    read_csv E (files w) input_file separator = Ok df ∧
    has_column smiles_column df = true ∧
    Fingerprinter E fp_type nbits (Some radius) "smiles" = Ok f ∧
    getitem df smiles_column = Ok xs ∧
    fp_transform E f xs = Ok t ∧
    with_ids df id_column t = Ok t' ∧
    (output_file ∉ denied w) ∧
    files w' = <[output_file := csv_of t']> (files w) ∧
    calls w' = calls w ++ [EvReadCsv input_file separator; EvNew "Fingerprinter";
                           EvTransform xs; EvToCsv output_file].
Proof.
  unfold rdkit, rdkit_body. unfold_monad. intros Hrun.
  destruct verbose; simpl in Hrun.
  all: destruct (read_csv E (files w) input_file separator) as [df|e] eqn:Hread;
    simpl in Hrun; [|done].
  all: destruct (has_column smiles_column df) eqn:Hcol; simpl in Hrun; [|done].
  all: destruct (Fingerprinter E fp_type nbits (Some radius) "smiles") as [f|e] eqn:Hnew;
    simpl in Hrun; [|done].
  all: destruct (getitem df smiles_column) as [xs|e] eqn:Hget; simpl in Hrun; [|done].
  all: destruct (fp_transform E f xs) as [t|e] eqn:Htr; simpl in Hrun; [|done].
  all: rewrite add_ids_run in Hrun.
  all: destruct (with_ids df id_column t) as [t'|e] eqn:Hids; simpl in Hrun; [|done].
  all: case_bool_decide; simpl in Hrun; [done|].
  all: injection Hrun as <-; simpl.
  all: exists df, f, xs, t, t'; rewrite <- ?app_assoc; simpl; done.
Qed.

Lemma rdkit_ok_intro (E : Collab)
    (input_file output_file smiles_column id_column fp_type : string)
    (nbits radius : Z) (separator : string) (verbose : bool) (w : World)
    (df : DataFrame) (f : Fp E) (xs : list Cell) (t t' : DataFrame) :
  read_csv E (files w) input_file separator = Ok df →
  has_column smiles_column df = true →
  Fingerprinter E fp_type nbits (Some radius) "smiles" = Ok f →
  getitem df smiles_column = Ok xs →
  fp_transform E f xs = Ok t →
  with_ids df id_column t = Ok t' →
  output_file ∉ denied w →
  ∃ w', rdkit E input_file output_file smiles_column id_column fp_type nbits
          radius separator verbose w = (Ok tt, w') ∧
        files w' = <[output_file := csv_of t']> (files w).
Proof.
  intros Hread Hcol Hnew Hget Htr Hids Hfree.
  unfold rdkit, rdkit_body. unfold_monad.
  destruct verbose; simpl.
  all: rewrite Hread; simpl; rewrite Hcol; simpl; rewrite Hnew; simpl.
  all: rewrite Hget; simpl; rewrite Htr; simpl.
  all: rewrite add_ids_run, Hids; simpl.
  all: rewrite bool_decide_eq_false_2 by done; simpl.
  all: by eexists.
Qed.

Lemma complex_ok_inv (E : Collab)
    (config_file input_file output_file separator : string) (verbose : bool)
    (w w' : World) :
  complex E config_file input_file output_file separator verbose w = (Ok tt, w') →
  ∃ content config df f t,
    files w !! config_file = Some content ∧
    json_load E content = Ok config ∧
    read_csv E (files w) input_file separator = Ok df ∧
    ComplexFragmentor E config = Ok f ∧
    fragmentor_transform E f df = Ok t ∧
    (output_file ∉ denied w) ∧
    files w' = <[output_file := csv_of t]> (files w) ∧
    calls w' = calls w ++ [EvJsonLoad config_file; EvReadCsv input_file separator;
                           EvNew "ComplexFragmentor"; EvTransformTable df;
                           EvToCsv output_file].
Proof.
  unfold complex, complex_body. unfold_monad. intros Hrun.
  destruct verbose; simpl in Hrun.
  all: destruct (files w !! config_file) as [content|] eqn:Hfile; simpl in Hrun; [|done].
  all: destruct (json_load E content) as [config|e] eqn:Hcfg; simpl in Hrun; [|done].
  all: destruct (read_csv E (files w) input_file separator) as [df|e] eqn:Hread;
    simpl in Hrun; [|done].
  all: destruct (ComplexFragmentor E config) as [f|e] eqn:Hnew; simpl in Hrun; [|done].
  all: destruct (fragmentor_transform E f df) as [t|e] eqn:Htr; simpl in Hrun; [|done].
  all: case_bool_decide; simpl in Hrun; [done|].
  all: injection Hrun as <-; simpl.
  all: exists content, config, df, f, t; rewrite <- ?app_assoc; simpl; done.
Qed.

(** ** Every run, step by step *)

(** Split on the first result a run depends on. *)
Ltac next_step :=
  match goal with
  | |- context [match ?x with _ => _ end] =>
      lazymatch x with
      | context [match _ with _ => _ end] => fail
      | _ => destruct x eqn:?; simpl
      end
  end.

Ltac all_steps := simpl; repeat (rewrite add_ids_run || next_step).

(** No event of a literal list occurs in it twice. *)
Ltac distinct_events :=
  simpl;
  repeat (apply NoDup_cons; split;
          [ rewrite ?elem_of_cons, elem_of_nil; intros H;
            repeat (destruct H as [H|H]; [discriminate H|]); exact H
          | ]);
  apply NoDup_nil_2.

Ltac show_made :=
  unfold made_calls; simpl; rewrite <- ?app_assoc;
  first [ reflexivity | symmetry; apply app_nil_r ].

(** Every run of a command body makes each of its calls once, and no file
    changes before the call that writes the output is made. *)
Lemma body_footprint (E : Collab) (c : Command) (w : World) :
  ∃ made, made_calls w (body E c w).2 made ∧ NoDup made ∧
          (Forall (fun ev => is_write ev = false) made →
           files (body E c w).2 = files w).
Proof.
  destruct c; simpl;
    unfold circus_body, rdkit_body, complex_body, optimize_body, rebuild_body,
      coloratom_body, plot_body, init_body, info_body, probe; unfold_monad.
  all: all_steps.
  all: eexists; (split; [show_made|]); (split; [distinct_events|]).
  all: intros Hquiet; try reflexivity.
  all: exfalso; simpl in Hquiet;
    repeat match goal with
           | H : Forall _ (_ :: _) |- _ => apply Forall_cons_1 in H as [? ?]
           end;
    simpl in *; congruence.
Qed.

Lemma run_unfold (E : Collab) (c : Command) :
  run E c = try_except (body E c) (wrap (operation c)).
Proof. by destruct c. Qed.

(** ** The feature-table contract of the transformers *)

Lemma reference_one_row_per_structure : one_row_per_structure SpecModel.collab.
Proof.
  split; [|split]; simpl.
  - intros c xs t. unfold SpecModel.transform.
    destruct (SpecModel.vocabulary c); [|done]. intros [= <-]. apply nrows_mkDF.
  - intros f xs t. unfold SpecModel.fingerprints. intros [= <-]. apply nrows_mkDF.
  - intros f df t. unfold SpecModel.frag_transform.
    destruct (SpecModel.transform_columns _ _); [|done].
    intros [= <-]. apply nrows_mkDF.
Qed.


(** The table a single-column command writes, read from the file. *)
Lemma written_table (df : DataFrame) (id_column output_file : string)
    (t t' : DataFrame) (fs fs' : gmap string FileContent) :
  with_ids df id_column t = Ok t' →
  fs' = <[output_file := csv_of t']> fs →
  fs' !! output_file = Some (FCsv "," ("ID" :: col_names t) (rows_of t')) ∧
  (length (rows_of t') = nrows t ∨
   (nrows t = 0%nat ∧ length (rows_of t') = nrows df)).
Proof.
  intros Hids ->. destruct (with_ids_shape _ _ _ _ Hids) as (vals & cols & Hc & Hn & Hrows).
  rewrite lookup_insert_eq, length_rows_of. split; [|done].
  unfold csv_of. rewrite <- Hn. unfold col_names. by rewrite Hc.
Qed.

(** The file that holds a frame whose first column is [ID]. *)
Lemma written_frame (idx : list Cell) (vals : list Cell)
    (cols : list (string * list Cell)) (output_file : string)
    (fs fs' : gmap string FileContent) :
  length vals = length idx →
  fs' = <[output_file := csv_of (mkFrame idx (("ID", vals) :: cols))]> fs →
  ∃ rows,
    fs' !! output_file = Some (FCsv "," ("ID" :: cols.*1) rows) ∧
    length rows = length idx ∧
    first_cells rows = vals.
Proof.
  intros Hlen ->. eexists. rewrite lookup_insert_eq. split; [reflexivity|].
  split; [apply length_rows_of | by apply first_cells_rows_of].
Qed.


(** ** Ids and rows of the circus output *)


(** ** A table without the ID column *)

Lemma with_ids_synthetic (df : DataFrame) (id_column : string) (t : DataFrame) :
  has_column id_column df = false → "ID" ∉ col_names t →
  with_ids df id_column t
    = Ok (mkFrame (index t) (("ID", range_cells (nrows t)) :: columns t)).
Proof.
  intros Hid Hnew. unfold with_ids. rewrite Hid.
  assert (Hkeep : ensure_valid_index (FromRange (nrows t)) t = t).
  { unfold ensure_valid_index, nrows. by destruct (index t). }
  rewrite (df_insert_front_ok "ID" _ t (range_cells (nrows t)) Hnew);
    rewrite Hkeep; [done|].
  simpl. by rewrite bool_decide_eq_true_2.
Qed.

(** C5: on a table that lacks the configured ID column, [descriptors
    circus] and [descriptors rdkit] go through wherever they would with it:
    once the structure column is read, the transformer has answered and the
    output can be written, the run ends well and the [ID] column of the
    output is 0..N-1, N being the number of feature rows, which is the
    number of input rows for a transformer that keeps one row per
    structure. *)
Theorem missing_id_column_gives_synthetic_ids (E : Collab)
    (input_file output_file smiles_column id_column separator : string)
    (verbose : bool) (w : World) (df : DataFrame) (xs : list Cell) :
  read_csv E (files w) input_file separator = Ok df →
  has_column id_column df = false →
  getitem df smiles_column = Ok xs →
  output_file ∉ denied w →
  (∀ lower upper on_bond c c' t,
     ChythonCircus E lower upper (Some on_bond) "smiles" = Ok c →
     circus_fit E c xs = Ok c' →
     circus_transform E c' xs = Ok t →
     "ID" ∉ col_names t →
     ∃ w' header rows,
       circus E input_file output_file smiles_column id_column lower upper
         on_bond separator verbose w = (Ok tt, w') ∧
       files w' !! output_file = Some (FCsv "," header rows) ∧
       head header = Some "ID" ∧
       first_cells rows = range_cells (nrows t) ∧
       length rows = nrows t ∧
       (one_row_per_structure E → well_formed df → nrows t = nrows df)) ∧
  (∀ fp_type nbits radius f t,
     Fingerprinter E fp_type nbits (Some radius) "smiles" = Ok f →
     fp_transform E f xs = Ok t →
     "ID" ∉ col_names t →
     ∃ w' header rows,
       rdkit E input_file output_file smiles_column id_column fp_type nbits
         radius separator verbose w = (Ok tt, w') ∧
       files w' !! output_file = Some (FCsv "," header rows) ∧
       head header = Some "ID" ∧
       first_cells rows = range_cells (nrows t) ∧
       length rows = nrows t ∧
       (one_row_per_structure E → well_formed df → nrows t = nrows df)).
Proof.
  intros Hread Hid Hget Hfree.
  assert (Hcol : has_column smiles_column df = true)
    by (apply has_column_getitem; eauto).
  split.
  - intros lower upper on_bond c c' t Hnew Hfit Htr Hfresh.
    pose proof (with_ids_synthetic df id_column t Hid Hfresh) as Hwith.
    destruct (circus_ok_intro E input_file output_file smiles_column id_column
                lower upper on_bond separator verbose w df c c' xs t _
                Hread Hcol Hnew Hget Hfit Htr Hwith Hfree) as (w' & Hrun & Hfiles).
    destruct (written_frame (index t) (range_cells (nrows t)) (columns t)
                output_file _ _ (length_range_cells _) Hfiles)
      as (rows & Hfile & Hlen & Hfirst).
    exists w'. eexists _, _. split; [exact Hrun|]. split; [exact Hfile|].
    split; [done|]. split; [done|]. split; [done|].
    intros (Hrows & _ & _) Hwf. rewrite (Hrows _ _ _ Htr).
    by apply (getitem_length _ _ _ Hwf Hget).
  - intros fp_type nbits radius f t Hnew Htr Hfresh.
    pose proof (with_ids_synthetic df id_column t Hid Hfresh) as Hwith.
    destruct (rdkit_ok_intro E input_file output_file smiles_column id_column
                fp_type nbits radius separator verbose w df f xs t _
                Hread Hcol Hnew Hget Htr Hwith Hfree) as (w' & Hrun & Hfiles).
    destruct (written_frame (index t) (range_cells (nrows t)) (columns t)
                output_file _ _ (length_range_cells _) Hfiles)
      as (rows & Hfile & Hlen & Hfirst).
    exists w'. eexists _, _. split; [exact Hrun|]. split; [exact Hfile|].
    split; [done|]. split; [done|]. split; [done|].
    intros (_ & Hrows & _) Hwf. rewrite (Hrows _ _ _ Htr).
    by apply (getitem_length _ _ _ Hwf Hget).
Qed.

(** ** The shape of the output of the descriptor commands *)

(** C3, as the code has it: a successful run of [descriptors circus] or
    [descriptors rdkit] writes a comma-separated table whose first column
    is [ID], followed by the feature names of the transformer, with one
    data row per input row; a successful run of [descriptors complex]
    writes, comma-separated, exactly the table the fragmentor returned,
    one data row per input row, and puts no [ID] column before it. *)
Theorem descriptor_output_table (E : Collab) :
  one_row_per_structure E →
  (∀ input_file output_file smiles_column id_column lower upper on_bond
     separator verbose w w' df,
     read_csv E (files w) input_file separator = Ok df →
     well_formed df →
     circus E input_file output_file smiles_column id_column lower upper
       on_bond separator verbose w = (Ok tt, w') →
     ∃ c xs t rows,
       circus_transform E c xs = Ok t ∧
       files w' !! output_file = Some (FCsv "," ("ID" :: col_names t) rows) ∧
       length rows = nrows df) ∧
  (∀ input_file output_file smiles_column id_column fp_type nbits radius
     separator verbose w w' df,
     read_csv E (files w) input_file separator = Ok df →
     well_formed df →
     rdkit E input_file output_file smiles_column id_column fp_type nbits
       radius separator verbose w = (Ok tt, w') →
     ∃ f xs t rows,
       fp_transform E f xs = Ok t ∧
       files w' !! output_file = Some (FCsv "," ("ID" :: col_names t) rows) ∧
       length rows = nrows df) ∧
  (∀ config_file input_file output_file separator verbose w w' df,
     read_csv E (files w) input_file separator = Ok df →
     complex E config_file input_file output_file separator verbose w
       = (Ok tt, w') →
     ∃ f t,
       fragmentor_transform E f df = Ok t ∧
       files w' !! output_file = Some (FCsv "," (col_names t) (rows_of t)) ∧
       length (rows_of t) = nrows df).
Proof.
  intros (Hcircus & Hfp & Hfrag). split; [|split].
  - intros input_file output_file smiles_column id_column lower upper on_bond
      separator verbose w w' df Hread Hwf Hrun.
    apply circus_ok_inv in Hrun
      as (df' & c & xs & c' & t & t' & Hread' & _ & _ & Hget & _ & Htr & Hwith & _ & Hfiles & _).
    rewrite Hread in Hread'. injection Hread' as <-.
    destruct (written_table _ _ _ _ _ _ _ Hwith Hfiles) as (Hfile & Hlen).
    exists c', xs, t. eexists. split; [done|]. split; [exact Hfile|].
    destruct Hlen as [Hlen|[_ Hlen]]; [|done].
    rewrite Hlen, (Hcircus _ _ _ Htr). by apply (getitem_length _ _ _ Hwf Hget).
  - intros input_file output_file smiles_column id_column fp_type nbits radius
      separator verbose w w' df Hread Hwf Hrun.
    apply rdkit_ok_inv in Hrun
      as (df' & f & xs & t & t' & Hread' & _ & _ & Hget & Htr & Hwith & _ & Hfiles & _).
    rewrite Hread in Hread'. injection Hread' as <-.
    destruct (written_table _ _ _ _ _ _ _ Hwith Hfiles) as (Hfile & Hlen).
    exists f, xs, t. eexists. split; [done|]. split; [exact Hfile|].
    destruct Hlen as [Hlen|[_ Hlen]]; [|done].
    rewrite Hlen, (Hfp _ _ _ Htr). by apply (getitem_length _ _ _ Hwf Hget).
  - intros config_file input_file output_file separator verbose w w' df Hread Hrun.
    apply complex_ok_inv in Hrun
      as (content & config & df' & f & t & _ & _ & Hread' & _ & Htr & _ & Hfiles & _).
    rewrite Hread in Hread'. injection Hread' as <-.
    exists f, t. split; [done|]. rewrite Hfiles, lookup_insert_eq.
    split; [done|]. by rewrite length_rows_of, (Hfrag _ _ _ Htr).
Qed.

(** ** The order of the steps *)

(** C4, as the code has it: every run of [descriptors circus] makes its
    calls in the order load, construct, fit, transform, write, the fit and
    the transform on the structures of the loaded table, and a run that ends
    well makes them all, the write last; every run of [descriptors rdkit]
    makes its calls in the order load, construct, transform, write and
    never calls fit; in a run of [descriptors complex] that ends well the
    table is loaded before it is transformed and the write is the last
    call. *)
Theorem descriptor_steps_in_order (E : Collab) :
  (∀ input_file output_file smiles_column id_column lower upper on_bond
     separator verbose w,
     let run := circus E input_file output_file smiles_column id_column lower
                  upper on_bond separator verbose w in
     let xs := loaded_structures E w input_file separator smiles_column in
     ∃ made,
       made_calls w run.2 made ∧
       made `prefix_of` circus_steps input_file separator xs output_file ∧
       (run.1 = Ok tt → made = circus_steps input_file separator xs output_file)) ∧
  (∀ input_file output_file smiles_column id_column fp_type nbits radius
     separator verbose w,
     let run := rdkit E input_file output_file smiles_column id_column fp_type
                  nbits radius separator verbose w in
     let xs := loaded_structures E w input_file separator smiles_column in
     ∃ made,
       made_calls w run.2 made ∧
       made `prefix_of` rdkit_steps input_file separator xs output_file ∧
       (run.1 = Ok tt → made = rdkit_steps input_file separator xs output_file)) ∧
  (∀ config_file input_file output_file separator verbose w w',
     complex E config_file input_file output_file separator verbose w
       = (Ok tt, w') →
     ∃ df made,
       read_csv E (files w) input_file separator = Ok df ∧
       made_calls w w' made ∧
       sublist [EvReadCsv input_file separator; EvTransformTable df;
                EvToCsv output_file] made ∧
       last made = Some (EvToCsv output_file)).
Proof.
  split; [|split].
  - intros input_file output_file smiles_column id_column lower upper on_bond
      separator verbose w.
    unfold circus, circus_body, circus_steps, loaded_structures. unfold_monad.
    all_steps.
    all: eexists; (split; [show_made|]); (split; [by eexists|]); done.
  - intros input_file output_file smiles_column id_column fp_type nbits radius
      separator verbose w.
    unfold rdkit, rdkit_body, rdkit_steps, loaded_structures. unfold_monad.
    all_steps.
    all: eexists; (split; [show_made|]); (split; [by eexists|]); done.
  - intros config_file input_file output_file separator verbose w w' Hrun.
    apply complex_ok_inv in Hrun
      as (content & config & df & f & t & _ & _ & Hread & _ & _ & _ & _ & Hcalls).
    exists df. eexists. split; [done|]. split; [exact Hcalls|]. split; [|done].
    apply sublist_cons, sublist_skip, sublist_cons, sublist_skip, sublist_skip.
    apply sublist_nil.
Qed.

(** ** Fitting before the explanation *)

(** C7, as the code has it: with descriptor type [circus], every run of
    [analysis coloratom] that reaches the explain call has fitted the
    transformer on the one-element sequence of the given SMILES before it;
    with [morgan] or [rdkfp] the command never calls fit. *)
Theorem coloratom_fit_before_explain (E : Collab) (model_file smiles : string)
    (descriptor_type : ColorKind) (output_file : option string) (show : bool)
    (w : World) :
  ∃ made,
    made_calls w (coloratom E model_file smiles descriptor_type output_file show w).2
      made ∧
    match descriptor_type with
    | KCircus =>
        EvExplain smiles ∈ made →
        ∃ rest, made = circus_explain_calls model_file smiles ++ rest
    | KMorgan | KRdkfp => ∀ xs, EvFit xs ∉ made
    end.
Proof.
  unfold coloratom, coloratom_body, circus_explain_calls. unfold_monad.
  destruct descriptor_type; all_steps.
  all: eexists; (split; [show_made|]); simpl.
  all: try (intros Hin; rewrite ?elem_of_cons, elem_of_nil in Hin;
            repeat (destruct Hin as [Hin|Hin]; [discriminate Hin|]);
            by (exfalso + eexists)).
  all: try (intros xs Hin; rewrite ?elem_of_cons, elem_of_nil in Hin;
            repeat (destruct Hin as [Hin|Hin]; [discriminate Hin|]); done).
  all: intros _; by eexists.
Qed.

(** ** Failures *)

(** A command that fails shows one message and exits with status 1. *)
Lemma invoke_failure (cmd : M unit) (w w1 : World) (msg : string) :
  cmd w = (Raise (ClickException msg), w1) →
  invoke cmd w = mkOutcome 1 ["Error: " +:+ msg] w1.
Proof. unfold invoke. by intros ->. Qed.

(** C2, as the code has it: when the structure column is not in the loaded
    table, [descriptors circus] and [descriptors rdkit] fail with one error
    message that contains the column name, exit with a non-zero status and
    write no file.  [descriptors complex] has no check of its own and hands
    the table to the fragmentor: when the transform raises, the command
    fails with the one message made of its prefix and the text of that
    error, whatever that text names, and writes no file; when the
    transform answers, the command writes the table it answered. *)
Theorem missing_structure_column_fails (E : Collab)
    (input_file output_file separator : string) (verbose : bool) (w : World)
    (df : DataFrame) (col : string) :
  read_csv E (files w) input_file separator = Ok df →
  has_column col df = false →
  (∀ id_column lower upper on_bond,
     fails_naming col w
       (invoke (circus E input_file output_file col id_column lower upper
                  on_bond separator verbose) w)) ∧
  (∀ id_column fp_type nbits radius,
     fails_naming col w
       (invoke (rdkit E input_file output_file col id_column fp_type nbits
                  radius separator verbose) w)) ∧
  (∀ config_file content config f,
     files w !! config_file = Some content →
     json_load E content = Ok config →
     ComplexFragmentor E config = Ok f →
     let o := invoke (complex E config_file input_file output_file separator
                        verbose) w in
     match fragmentor_transform E f df with
     | Raise e =>
         exit_code o = 1 ∧
         stderr o = ["Error: Error calculating complex descriptors: " +:+ str e] ∧
         files (final o) = files w
     | Ok t =>
         output_file ∉ denied w →
         files (final o) = <[output_file := csv_of t]> (files w) ∧
         (verbose = false → exit_code o = 0)
     end).
Proof.
  intros Hread Hcol. split; [|split].
  - intros id_column lower upper on_bond.
    destruct verbose.
    all: erewrite invoke_failure;
      [| unfold circus, circus_body; unfold_monad; simpl;
         rewrite Hread; simpl; rewrite Hcol; reflexivity ].
    all: split; [done|]; split; [|done].
    all: eexists; (split; [reflexivity|]); simpl; find_text.
  - intros id_column fp_type nbits radius.
    destruct verbose.
    all: erewrite invoke_failure;
      [| unfold rdkit, rdkit_body; unfold_monad; simpl;
         rewrite Hread; simpl; rewrite Hcol; reflexivity ].
    all: split; [done|]; split; [|done].
    all: eexists; (split; [reflexivity|]); simpl; find_text.
  - intros config_file content config f Hfile Hcfg Hnew.
    unfold invoke, complex, complex_body. unfold_monad.
    destruct verbose; simpl.
    all: rewrite Hfile; simpl; rewrite Hcfg; simpl; rewrite Hread; simpl.
    all: rewrite Hnew; simpl.
    all: destruct (fragmentor_transform E f df) as [t|e]; simpl; [|done].
    all: intros Hfree; rewrite bool_decide_eq_false_2 by done; simpl; done.
Qed.

(** C6, as the code has it: whatever error the body of a command ends
    with, the command fails once, with exit status 1 and one message made
    of the name of the operation and the text of the error; no call was
    made twice; and when the run has not come to the call that writes its
    output, every file is as it was. *)
Theorem failure_is_wrapped_once (E : Collab) (c : Command) (w w1 : World) (e : Exn) :
  body E c w = (Raise e, w1) →
  let msg := operation c +:+ ": " +:+ str e in
  run E c w = (Raise (ClickException msg), w1) ∧
  invoke (run E c) w = mkOutcome 1 ["Error: " +:+ msg] w1 ∧
  contains (operation c) msg ∧
  contains (str e) msg ∧
  ∃ made,
    made_calls w w1 made ∧ NoDup made ∧
    (Forall (fun ev => is_write ev = false) made → files w1 = files w).
Proof.
  intros Hbody msg.
  assert (Hrun : run E c w = (Raise (ClickException msg), w1)).
  { rewrite run_unfold. unfold try_except, wrap, raise. by rewrite Hbody. }
  split; [exact Hrun|]. split; [by apply invoke_failure|].
  split; [apply contains_app_l, contains_refl|].
  split; [do 2 apply contains_app_r; apply contains_refl|].
  destruct (body_footprint E c w) as (made & Hmade & Hdistinct & Hfiles).
  rewrite Hbody in Hmade, Hfiles. simpl in Hmade, Hfiles.
  by exists made.
Qed.

(** * Runs on the reference collaborators *)

Module Runs.

Import SpecModel.

Example circus_scenario :
  (circus collab "molecules.tsv" "out.csv" "SMILES" "ID" 0 1 false tab false
     with_ids_table).1 = Ok tt ∧
  files (circus collab "molecules.tsv" "out.csv" "SMILES" "ID" 0 1 false tab false
           with_ids_table).2 !! "out.csv"
  = Some (FCsv "," ["ID"; "C"; "O"; "CC"; "CO"]
            [[CStr "m1"; CInt 2; CInt 1; CInt 1; CInt 1];
             [CStr "m2"; CInt 3; CInt 0; CInt 2; CInt 0]]).
Proof. split; vm_compute; reflexivity. Qed.



Lemma missing_structure_column_fails_witness :
  fails_naming "SMILES" without_smiles_table
    (invoke (circus collab "molecules.tsv" "out.csv" "SMILES" "ID" 0 3 false tab
               true) without_smiles_table) ∧
  fails_naming "SMILES" without_smiles_table
    (invoke (rdkit collab "molecules.tsv" "out.csv" "SMILES" "ID" "morgan" 1024 2
               tab true) without_smiles_table) ∧
  (let o := invoke (complex collab "config.json" "molecules.tsv" "out.csv" tab true)
              without_smiles_table in
   exit_code o = 1 ∧
   stderr o = ["Error: Error calculating complex descriptors: "
               +:+ "column 'SMILES' is not in the input table"] ∧
   files (final o) = files without_smiles_table).
Proof.
  destruct (missing_structure_column_fails collab "molecules.tsv" "out.csv" tab
              true without_smiles_table
              (frame_of ["ID"; "name"] [[CStr "m1"; CStr "ethanol"]]) "SMILES")
    as (Hcircus & Hrdkit & Hcomplex).
  - vm_compute; reflexivity.
  - vm_compute; reflexivity.
  - split; [apply Hcircus|]. split; [apply Hrdkit|].
    apply (Hcomplex "config.json" (FJson smiles_config 2) smiles_config
             (mkFrag [("SMILES", InFp (mkFp "morgan" 4 2))] ["SMILES"])).
    + vm_compute; reflexivity.
    + reflexivity.
    + vm_compute; reflexivity.
Defined.

(** [descriptors complex] on a table without the column its configuration
    declares, with a fragmentor that reports the failure without the name
    of the column: the one message of the command does not contain it. *)
Lemma complex_message_without_column :
  let o := invoke (complex Variants.terse "config.json" "molecules.tsv" "out.csv"
                     tab false) without_smiles_table in
  json_get "structure_columns" smiles_config = Some (JArr [JStr "SMILES"]) ∧
  (∃ df, read_csv Variants.terse (files without_smiles_table) "molecules.tsv" tab
         = Ok df ∧ has_column "SMILES" df = false) ∧
  exit_code o = 1 ∧
  (∃ msg, stderr o = [msg] ∧ ¬ contains "SMILES" msg) ∧
  ¬ fails_naming "SMILES" without_smiles_table o.
Proof.
  intros o.
  assert (Herr : stderr o = ["Error: Error calculating complex descriptors: "
                             +:+ "a declared column is not in the input table"])
    by (vm_compute; reflexivity).
  assert (Hno : ¬ contains "SMILES"
                    ("Error: Error calculating complex descriptors: "
                     +:+ "a declared column is not in the input table")).
  { intros Hin. apply contains_occurs in Hin. vm_compute in Hin. discriminate Hin. }
  split; [reflexivity|]. split.
  { eexists. split; vm_compute; reflexivity. }
  split; [vm_compute; reflexivity|]. split.
  { eexists. split; [exact Herr | exact Hno]. }
  intros (_ & (msg & Hmsg & Hin) & _). rewrite Herr in Hmsg.
  injection Hmsg as <-. by apply Hno.
Qed.

(** The table [descriptors complex] writes starts with a feature column. *)
Lemma complex_output_has_no_id_column :
  ∃ w' header rows,
    complex collab "config.json" "molecules.tsv" "out.csv" tab false
      composite_table = (Ok tt, w') ∧
    files w' !! "out.csv" = Some (FCsv "," header rows) ∧
    head header ≠ Some "ID".
Proof.
  exists (complex collab "config.json" "molecules.tsv" "out.csv" tab false
            composite_table).2,
    ["molecules__0"; "molecules__1"; "molecules__2"; "molecules__3"],
    [[CInt 0; CInt 0; CInt 0; CInt 1]; [CInt 0; CInt 0; CInt 0; CInt 1]].
  split; [vm_compute; reflexivity|]. split; [vm_compute; reflexivity|].
  simpl. discriminate.
Qed.

Lemma descriptor_output_table_witness :
  (∃ c xs t rows,
     circus_transform collab c xs = Ok t ∧
     files (circus collab "molecules.tsv" "out.csv" "SMILES" "ID" 0 1 false tab
              false with_ids_table).2 !! "out.csv"
       = Some (FCsv "," ("ID" :: col_names t) rows) ∧
     length rows = 2%nat) ∧
  (∃ f xs t rows,
     fp_transform collab f xs = Ok t ∧
     files (rdkit collab "molecules.tsv" "out.csv" "SMILES" "ID" "morgan" 4 2 tab
              false with_ids_table).2 !! "out.csv"
       = Some (FCsv "," ("ID" :: col_names t) rows) ∧
     length rows = 2%nat) ∧
  (∃ f t,
     fragmentor_transform collab f
       (frame_of ["molecules"] [[CStr "CCO"]; [CStr "CCC"]]) = Ok t ∧
     files (complex collab "config.json" "molecules.tsv" "out.csv" tab false
              composite_table).2 !! "out.csv"
       = Some (FCsv "," (col_names t) (rows_of t)) ∧
     length (rows_of t) = 2%nat).
Proof.
  destruct (descriptor_output_table collab reference_one_row_per_structure)
    as (Hcircus & Hrdkit & Hcomplex).
  split; [|split].
  - apply (Hcircus "molecules.tsv" "out.csv" "SMILES" "ID" 0 1 false tab false
             with_ids_table _
             (frame_of ["ID"; "SMILES"]
                [[CStr "m1"; CStr "CCO"]; [CStr "m2"; CStr "CCC"]])).
    + vm_compute; reflexivity.
    + repeat constructor.
    + vm_compute; reflexivity.
  - apply (Hrdkit "molecules.tsv" "out.csv" "SMILES" "ID" "morgan" 4 2 tab false
             with_ids_table _
             (frame_of ["ID"; "SMILES"]
                [[CStr "m1"; CStr "CCO"]; [CStr "m2"; CStr "CCC"]])).
    + vm_compute; reflexivity.
    + repeat constructor.
    + vm_compute; reflexivity.
  - apply (Hcomplex "config.json" "molecules.tsv" "out.csv" tab false
             composite_table).
    + vm_compute; reflexivity.
    + vm_compute; reflexivity.
Defined.

(** [descriptors rdkit] ends well without a call of fit. *)
Lemma rdkit_run_without_fit :
  ∃ w',
    rdkit collab "molecules.tsv" "out.csv" "SMILES" "ID" "morgan" 4 2 tab false
      with_ids_table = (Ok tt, w') ∧
    calls w' = [EvReadCsv "molecules.tsv" tab; EvNew "Fingerprinter";
                EvTransform [CStr "CCO"; CStr "CCC"]; EvToCsv "out.csv"] ∧
    ∀ xs, EvFit xs ∉ calls w'.
Proof.
  exists (rdkit collab "molecules.tsv" "out.csv" "SMILES" "ID" "morgan" 4 2 tab
            false with_ids_table).2.
  split; [vm_compute; reflexivity|].
  assert (Hcalls : calls (rdkit collab "molecules.tsv" "out.csv" "SMILES" "ID"
                            "morgan" 4 2 tab false with_ids_table).2
                   = [EvReadCsv "molecules.tsv" tab; EvNew "Fingerprinter";
                      EvTransform [CStr "CCO"; CStr "CCC"]; EvToCsv "out.csv"])
    by (vm_compute; reflexivity).
  split; [exact Hcalls|]. rewrite Hcalls. intros xs Hin.
  rewrite ?elem_of_cons, elem_of_nil in Hin.
  repeat (destruct Hin as [Hin|Hin]; [discriminate Hin|]). exact Hin.
Qed.

Lemma descriptor_steps_in_order_witness :
  calls (circus collab "molecules.tsv" "out.csv" "SMILES" "ID" 0 1 false tab true
           with_ids_table).2
    = circus_steps "molecules.tsv" tab [CStr "CCO"; CStr "CCC"] "out.csv" ∧
  calls (rdkit collab "molecules.tsv" "out.csv" "SMILES" "ID" "morgan" 4 2 tab true
           with_ids_table).2
    = rdkit_steps "molecules.tsv" tab [CStr "CCO"; CStr "CCC"] "out.csv" ∧
  (∃ df made,
     read_csv collab (files composite_table) "molecules.tsv" tab = Ok df ∧
     made_calls composite_table
       (complex collab "config.json" "molecules.tsv" "out.csv" tab true
          composite_table).2 made ∧
     sublist [EvReadCsv "molecules.tsv" tab; EvTransformTable df;
              EvToCsv "out.csv"] made ∧
     last made = Some (EvToCsv "out.csv")).
Proof.
  destruct (descriptor_steps_in_order collab) as (Hcircus & Hrdkit & Hcomplex).
  split; [|split].
  - destruct (Hcircus "molecules.tsv" "out.csv" "SMILES" "ID" 0 1 false tab true
                with_ids_table) as (made & Hmade & _ & Hall).
    rewrite Hmade, Hall; [reflexivity | vm_compute; reflexivity].
  - destruct (Hrdkit "molecules.tsv" "out.csv" "SMILES" "ID" "morgan" 4 2 tab true
                with_ids_table) as (made & Hmade & _ & Hall).
    rewrite Hmade, Hall; [reflexivity | vm_compute; reflexivity].
  - apply (Hcomplex "config.json" "molecules.tsv" "out.csv" tab true).
    vm_compute; reflexivity.
Defined.

Lemma missing_id_column_gives_synthetic_ids_witness :
  (∃ w' header rows,
     circus collab "molecules.tsv" "out.csv" "SMILES" "ID" 0 1 false tab false
       without_ids_table = (Ok tt, w') ∧
     files w' !! "out.csv" = Some (FCsv "," header rows) ∧
     head header = Some "ID" ∧
     first_cells rows = [CInt 0; CInt 1]) ∧
  (∃ w' header rows,
     rdkit collab "molecules.tsv" "out.csv" "SMILES" "ID" "morgan" 4 2 tab false
       without_ids_table = (Ok tt, w') ∧
     files w' !! "out.csv" = Some (FCsv "," header rows) ∧
     head header = Some "ID" ∧
     first_cells rows = [CInt 0; CInt 1]).
Proof.
  destruct (missing_id_column_gives_synthetic_ids collab "molecules.tsv" "out.csv"
              "SMILES" "ID" tab false without_ids_table
              (frame_of ["SMILES"] [[CStr "CCO"]; [CStr "CCC"]])
              [CStr "CCO"; CStr "CCC"]) as (Hcircus & Hrdkit).
  - vm_compute; reflexivity.
  - vm_compute; reflexivity.
  - vm_compute; reflexivity.
  - apply (bool_decide_unpack _). vm_compute. exact I.
  - split.
    + destruct (Hcircus 0 1 false
                  (mkCircus 0 1 false None)
                  (mkCircus 0 1 false (Some ["C"; "O"; "CC"; "CO"]))
                  (mkDF 2 [("C", [CInt 2; CInt 3]); ("O", [CInt 1; CInt 0]);
                           ("CC", [CInt 1; CInt 2]); ("CO", [CInt 1; CInt 0])]))
        as (w' & header & rows & Hrun & Hfile & Hhead & Hfirst & _).
      * vm_compute; reflexivity.
      * vm_compute; reflexivity.
      * vm_compute; reflexivity.
      * apply (bool_decide_unpack _). vm_compute. exact I.
      * by exists w', header, rows.
    + destruct (Hrdkit "morgan" 4 2 (mkFp "morgan" 4 2)
                  (mkDF 2 [("0", [CInt 0; CInt 0]); ("1", [CInt 0; CInt 0]);
                           ("2", [CInt 0; CInt 0]); ("3", [CInt 1; CInt 1])]))
        as (w' & header & rows & Hrun & Hfile & Hhead & Hfirst & _).
      * vm_compute; reflexivity.
      * vm_compute; reflexivity.
      * apply (bool_decide_unpack _). vm_compute. exact I.
      * by exists w', header, rows.
Defined.

(** [analysis coloratom] fails at [show] after the figure is saved: the
    command exits with status 1 and the output file is there. *)
Lemma coloratom_failure_leaves_figure :
  let o := invoke (coloratom headless "model.pkl" "CCO" KMorgan (Some "out.png") true)
             with_model in
  exit_code o = 1 ∧
  stderr o = ["Error: Error creating ColorAtom visualization: "
              +:+ "Figure.show works only for figures managed by pyplot"] ∧
  files with_model !! "out.png" = None ∧
  files (final o) !! "out.png"
    = Some (FFigure "atom contributions of CCO" 300 "tight").
Proof. repeat split; vm_compute; reflexivity. Qed.

Lemma failure_is_wrapped_once_witness :
  let w1 := (body collab
               (CmdCircus "molecules.tsv" "out.csv" "SMILES" "ID" 0 3 false tab false)
               without_smiles_table).2 in
  let msg := "Error calculating CircuS descriptors: "
             +:+ "Column 'SMILES' not found in input file" in
  invoke (run collab
            (CmdCircus "molecules.tsv" "out.csv" "SMILES" "ID" 0 3 false tab false))
    without_smiles_table = mkOutcome 1 ["Error: " +:+ msg] w1 ∧
  files w1 = files without_smiles_table.
Proof.
  intros w1 msg.
  destruct (failure_is_wrapped_once collab
              (CmdCircus "molecules.tsv" "out.csv" "SMILES" "ID" 0 3 false tab false)
              without_smiles_table w1
              (ClickException "Column 'SMILES' not found in input file"))
    as (_ & Hinvoke & _ & _ & made & Hmade & _ & Hfiles).
  - vm_compute; reflexivity.
  - split; [exact Hinvoke|]. apply Hfiles.
    assert (Hcalls : made = [EvReadCsv "molecules.tsv" tab]) by exact (eq_sym Hmade).
    rewrite Hcalls. by repeat constructor.
Defined.

(** [analysis coloratom] with the Morgan fingerprint reaches the explain
    call and ends well without a call of fit. *)
Lemma coloratom_morgan_explains_without_fit :
  ∃ w',
    coloratom collab "model.pkl" "CCO" KMorgan None false with_model = (Ok tt, w') ∧
    calls w' = [EvPickleLoad "model.pkl"; EvNew "Fingerprinter"; EvNew "ColorAtom";
                EvExplain "CCO"] ∧
    (∀ xs, EvFit xs ∉ calls w').
Proof.
  exists (coloratom collab "model.pkl" "CCO" KMorgan None false with_model).2.
  split; [vm_compute; reflexivity|].
  assert (Hcalls : calls (coloratom collab "model.pkl" "CCO" KMorgan None false
                            with_model).2
                   = [EvPickleLoad "model.pkl"; EvNew "Fingerprinter";
                      EvNew "ColorAtom"; EvExplain "CCO"])
    by (vm_compute; reflexivity).
  split; [exact Hcalls|]. rewrite Hcalls. intros xs Hin.
  rewrite ?elem_of_cons, elem_of_nil in Hin.
  repeat (destruct Hin as [Hin|Hin]; [discriminate Hin|]). exact Hin.
Qed.

Lemma init_complex_document_witness :
  ∃ doc a cs f,
    files (init IComplex "doptools_config.json" (world ∅)).2 !! "doptools_config.json"
      = Some (FJson doc 2) ∧
    doc = JObj [("name", JStr "Complex Multi-Column Descriptors");
                ("description",
                 JStr "ComplexFragmentor for multiple molecular columns");
                ("associator", a); ("structure_columns", cs); ("fmt", f)] ∧
    a = JArr [JArr [JStr "molecules";
                    JObj [("type", JStr "circus"); ("lower", JNum 0);
                          ("upper", JNum 2)]]] ∧
    cs = JArr [JStr "molecules"] ∧
    f = JStr "smiles" ∧
    json_get "associator" doc = Some a ∧ is_pair_list a ∧
    json_get "structure_columns" doc = Some cs ∧ is_name_list cs ∧
    json_get "fmt" doc = Some f ∧ is_text f.
Proof.
  apply (init_complex_document "doptools_config.json" (world ∅)).
  apply (bool_decide_unpack _). vm_compute. exact I.
Defined.

Lemma argv_restored_witness :
  ∃ w',
    run collab (CmdOptimize "config.json" true) (world ∅) = (Ok tt, w') ∧
    sys_argv w' = sys_argv (world ∅) ∧
    argv_value w' = argv_value (world ∅).
Proof.
  apply (argv_restored collab (CmdOptimize "config.json" true) (world ∅)).
  - reflexivity.
  - exists ["doptools"]. reflexivity.
Defined.

Example optimize_argv :
  argv_value (optimize "config.json" true (world ∅)).2 = Some ["doptools"] ∧
  heap (optimize "config.json" true (world ∅)).2
    = [["doptools"]; ["launch_optimizer"; "--config"; "config.json"; "--verbose"]].
Proof. split; vm_compute; reflexivity. Qed.

End Runs.

(** * Further properties of the commands *)

(** ** Narration *)


(** X2: without the verbose flag the three descriptor commands echo
    nothing, however the run ends. *)
Theorem quiet_descriptor_commands_echo_nothing (E : Collab) (w : World) :
  (∀ input_file output_file smiles_column id_column lower upper on_bond separator,
     stdout (circus E input_file output_file smiles_column id_column lower upper
               on_bond separator false w).2 = stdout w) ∧
  (∀ input_file output_file smiles_column id_column fp_type nbits radius separator,
     stdout (rdkit E input_file output_file smiles_column id_column fp_type nbits
               radius separator false w).2 = stdout w) ∧
  (∀ config_file input_file output_file separator,
     stdout (complex E config_file input_file output_file separator false w).2
       = stdout w).
Proof.
  split; [|split].
  - intros. unfold circus, circus_body. unfold_monad. all_steps. all: done.
  - intros. unfold rdkit, rdkit_body. unfold_monad. all_steps. all: done.
  - intros. unfold complex, complex_body. unfold_monad. all_steps. all: done.
Qed.

(** ** What a command leaves alone *)


(** X4: the commands other than the three stubs leave [sys.argv] and every
    list object alone. *)
Theorem argv_untouched_elsewhere (E : Collab) (c : Command) (w : World) :
  lends_argv c = false →
  sys_argv (run E c w).2 = sys_argv w ∧ heap (run E c w).2 = heap w.
Proof.
  intros Hc.
  destruct c; try discriminate Hc; simpl;
    unfold circus, circus_body, rdkit, rdkit_body, complex, complex_body,
      coloratom, coloratom_body, init, init_body, info, info_body, probe;
    unfold_monad.
  all: all_steps.
  all: done.
Qed.

(** ** Options left empty *)

Lemma truthy_given (o : option string) : truthy (given o) = truthy o.
Proof. unfold given. by destruct (truthy o) eqn:H. Qed.

Lemma default_given (o : option string) :
  truthy o = true → default EmptyString (given o) = default EmptyString o.
Proof. unfold given. by intros ->. Qed.

(** X5: an option given as the empty string counts as not given:
    [analysis plot] passes no [--x-column], [--y-column] or [--output] on
    for it, and [analysis coloratom] saves no figure for an empty
    [--output]. *)
Theorem empty_option_is_no_option (E : Collab) (w : World) :
  (∀ input_file plot_type x_column y_column output_file show,
     plot input_file plot_type x_column y_column output_file show w
     = plot input_file plot_type (given x_column) (given y_column)
         (given output_file) show w) ∧
  (∀ model_file smiles descriptor_type show,
     coloratom E model_file smiles descriptor_type (Some EmptyString) show w
     = coloratom E model_file smiles descriptor_type None show w).
Proof.
  split; [|done].
  intros input_file plot_type x_column y_column output_file show.
  unfold plot, plot_body. rewrite !truthy_given.
  destruct (truthy x_column) eqn:Hx, (truthy y_column) eqn:Hy,
    (truthy output_file) eqn:Ho;
    rewrite ?(default_given _ Hx), ?(default_given _ Hy), ?(default_given _ Ho);
    reflexivity.
Qed.

(** ** The feature table and the ids *)

(** X6: when the feature table of the transformer already has a column
    named [ID], [descriptors circus] and [descriptors rdkit] fail on the
    insert with the one message [cannot insert ID, already exists], exit
    with status 1 and write no file, whether the table has an ID column or
    not. *)
Theorem feature_named_ID_is_fatal (E : Collab)
    (input_file output_file smiles_column id_column separator : string)
    (verbose : bool) (w : World) (df : DataFrame) (xs : list Cell) :
  read_csv E (files w) input_file separator = Ok df →
  getitem df smiles_column = Ok xs →
  (∀ lower upper on_bond c c' t,
     ChythonCircus E lower upper (Some on_bond) "smiles" = Ok c →
     circus_fit E c xs = Ok c' →
     circus_transform E c' xs = Ok t →
     "ID" ∈ col_names t →
     let o := invoke (circus E input_file output_file smiles_column id_column
                        lower upper on_bond separator verbose) w in
     exit_code o = 1 ∧
     stderr o = ["Error: Error calculating CircuS descriptors: "
                 +:+ "cannot insert ID, already exists"] ∧
     files (final o) = files w) ∧
  (∀ fp_type nbits radius f t,
     Fingerprinter E fp_type nbits (Some radius) "smiles" = Ok f →
     fp_transform E f xs = Ok t →
     "ID" ∈ col_names t →
     let o := invoke (rdkit E input_file output_file smiles_column id_column
                        fp_type nbits radius separator verbose) w in
     exit_code o = 1 ∧
     stderr o = ["Error: Error calculating RDKit descriptors: "
                 +:+ "cannot insert ID, already exists"] ∧
     files (final o) = files w).
Proof.
  intros Hread Hget.
  assert (Hcol : has_column smiles_column df = true)
    by (apply has_column_getitem; eauto).
  assert (Hdup : ∀ t, "ID" ∈ col_names t →
            with_ids df id_column t
            = Raise (PyError "ValueError" "cannot insert ID, already exists")).
  { intros t Hin. unfold with_ids, df_insert, has_column at 2 3.
    rewrite bool_decide_eq_true_2 by done.
    destruct (has_column id_column df) eqn:Hid; [|done].
    apply has_column_getitem in Hid as [ids ->]. done. }
  split.
  - intros lower upper on_bond c c' t Hnew Hfit Htr Hin.
    unfold invoke, circus, circus_body. unfold_monad.
    destruct verbose; simpl.
    all: rewrite Hread; simpl; rewrite Hcol; simpl; rewrite Hnew; simpl.
    all: rewrite Hget; simpl; rewrite Hfit; simpl; rewrite Htr; simpl.
    all: rewrite add_ids_run, (Hdup t Hin); simpl; done.
  - intros fp_type nbits radius f t Hnew Htr Hin.
    unfold invoke, rdkit, rdkit_body. unfold_monad.
    destruct verbose; simpl.
    all: rewrite Hread; simpl; rewrite Hcol; simpl; rewrite Hnew; simpl.
    all: rewrite Hget; simpl; rewrite Htr; simpl.
    all: rewrite add_ids_run, (Hdup t Hin); simpl; done.
Qed.












(** ** What verbose mode reports *)

Lemma features_counted (df : DataFrame) (id_column : string) (t t' : DataFrame) :
  with_ids df id_column t = Ok t' → width t' - 1 = Z.of_nat (length (columns t)).
Proof.
  intros H. destruct (with_ids_shape _ _ _ _ H) as (vals & cols & Hc & Hn & _).
  unfold width. rewrite Hc. simpl length.
  apply (f_equal length) in Hn. unfold col_names in Hn.
  rewrite !length_fmap in Hn. lia.
Qed.

(** X8: a verbose run that ends well echoes a fixed sequence of lines, and
    the number it reports is the number of feature columns of the
    transformer's table: the [ID] column is not counted by [descriptors
    circus] and [descriptors rdkit], and every column is counted by
    [descriptors complex]; the number of molecules is the number of rows
    of the input table. *)
Theorem verbose_reports_feature_count (E : Collab)
    (input_file output_file separator : string) (w : World) (df : DataFrame) :
  read_csv E (files w) input_file separator = Ok df →
  output_file ∉ denied w →
  (∀ smiles_column id_column lower upper on_bond xs c c' t t',
     getitem df smiles_column = Ok xs →
     ChythonCircus E lower upper (Some on_bond) "smiles" = Ok c →
     circus_fit E c xs = Ok c' →
     circus_transform E c' xs = Ok t →
     with_ids df id_column t = Ok t' →
     stdout (circus E input_file output_file smiles_column id_column lower upper
               on_bond separator true w).2
     = stdout w ++ circus_lines input_file output_file lower upper
                     (nrows df) (length (columns t))) ∧
  (∀ smiles_column id_column fp_type nbits radius xs f t t',
     getitem df smiles_column = Ok xs →
     Fingerprinter E fp_type nbits (Some radius) "smiles" = Ok f →
     fp_transform E f xs = Ok t →
     with_ids df id_column t = Ok t' →
     stdout (rdkit E input_file output_file smiles_column id_column fp_type nbits
               radius separator true w).2
     = stdout w ++ rdkit_lines input_file output_file fp_type
                     (nrows df) (length (columns t))) ∧
  (∀ config_file content config f t,
     files w !! config_file = Some content →
     json_load E content = Ok config →
     ComplexFragmentor E config = Ok f →
     fragmentor_transform E f df = Ok t →
     stdout (complex E config_file input_file output_file separator true w).2
     = stdout w ++ complex_lines config_file input_file output_file
                     (nrows df) (length (columns t))).
Proof.
  intros Hread Hfree. split; [|split].
  - intros smiles_column id_column lower upper on_bond xs c c' t t'
      Hget Hnew Hfit Htr Hwith.
    assert (Hcol : has_column smiles_column df = true)
      by (apply has_column_getitem; eauto).
    unfold circus, circus_body, circus_lines. unfold_monad. simpl.
    rewrite Hread; simpl; rewrite Hcol; simpl; rewrite Hnew; simpl.
    rewrite Hget; simpl; rewrite Hfit; simpl; rewrite Htr; simpl.
    rewrite add_ids_run, Hwith; simpl.
    rewrite bool_decide_eq_false_2 by done; simpl.
    rewrite <- !app_assoc. simpl. by rewrite (features_counted _ _ _ _ Hwith).
  - intros smiles_column id_column fp_type nbits radius xs f t t'
      Hget Hnew Htr Hwith.
    assert (Hcol : has_column smiles_column df = true)
      by (apply has_column_getitem; eauto).
    unfold rdkit, rdkit_body, rdkit_lines. unfold_monad. simpl.
    rewrite Hread; simpl; rewrite Hcol; simpl; rewrite Hnew; simpl.
    rewrite Hget; simpl; rewrite Htr; simpl.
    rewrite add_ids_run, Hwith; simpl.
    rewrite bool_decide_eq_false_2 by done; simpl.
    rewrite <- !app_assoc. simpl. by rewrite (features_counted _ _ _ _ Hwith).
  - intros config_file content config f t Hfile Hcfg Hnew Htr.
    unfold complex, complex_body, complex_lines. unfold_monad. simpl.
    rewrite Hfile; simpl; rewrite Hcfg; simpl; rewrite Hread; simpl.
    rewrite Hnew; simpl; rewrite Htr; simpl.
    rewrite bool_decide_eq_false_2 by done; simpl.
    by rewrite <- !app_assoc.
Qed.

(** ** The figure of [analysis coloratom] *)

(** X9: a run of [analysis coloratom] that ends well with a non-empty
    [--output] has saved the figure the explain call returned for the given
    SMILES, at 300 dpi with a tight bounding box, in the file matplotlib
    names for the output, and has echoed the output as it was given. *)
Theorem coloratom_saves_the_explained_figure (E : Collab)
    (model_file smiles path : string) (descriptor_type : ColorKind) (show : bool)
    (w w' : World) :
  path ≠ EmptyString →
  coloratom E model_file smiles descriptor_type (Some path) show w = (Ok tt, w') →
  ∃ painter fig written,
    explain E painter smiles = Ok fig ∧
    savefig_name E path = Ok written ∧
    files w' = <[written := FFigure fig 300 "tight"]> (files w) ∧
    stdout w' = stdout w ++ ["Analyzing SMILES: " +:+ smiles;
                             "Visualization saved to " +:+ path].
Proof.
  intros Hpath. apply String.eqb_neq in Hpath.
  unfold coloratom, coloratom_body. unfold_monad. simpl. rewrite Hpath. simpl.
  destruct descriptor_type; all_steps.
  all: intros Hend; try discriminate Hend; apply (f_equal snd) in Hend; simpl in Hend; subst w'.
  all: eexists _, _, _; (split; [eassumption|]); (split; [reflexivity|]); simpl.
  all: by rewrite <- ?app_assoc.
Qed.


(** ** The configuration file of [init] *)


(** ** [info] and its imports *)

(** X12: [info] does not fail over a missing chython or rdkit.  Once
    scikit-learn, pandas and numpy are imported, a probe that raises an
    [ImportError] only changes its line to [Not available]: the command
    ends well after the ten lines of the report and one line per probe. *)
Theorem info_tolerates_missing_chemistry (E : Collab) (w : World)
    (sklearn pd np chython_line rdkit_line : string) :
  import_version E "sklearn" = Ok sklearn →
  import_version E "pandas" = Ok pd →
  import_version E "numpy" = Ok np →
  probe_line E "chython" = Some chython_line →
  probe_line E "rdkit" = Some rdkit_line →
  ∃ w', info E w = (Ok tt, w') ∧
        stdout w' = stdout w ++ info_lines E sklearn pd np
                      ++ [chython_line; rdkit_line].
Proof.
  unfold probe_line. intros Hsk Hpd Hnp Hch Hrd.
  unfold info, info_body, probe, info_lines. unfold_monad. simpl.
  rewrite Hsk. simpl. rewrite Hpd. simpl. rewrite Hnp. simpl.
  destruct (import_version E "chython") as [v1|e1]; simpl;
    [|destruct (is_import_error e1); [|done]];
    (destruct (import_version E "rdkit") as [v2|e2]; simpl;
     [|destruct (is_import_error e2); [|done]]).
  all: injection Hch as <-; injection Hrd as <-.
  all: eexists; (split; [reflexivity|]); simpl; by rewrite <- !app_assoc.
Qed.

(** X13: the import of scikit-learn at the head of [info] is not guarded:
    when it fails, for whatever reason, an [ImportError] too, the command
    exits with status 1 on the text of that error, has echoed nothing and
    has tried no other import. *)
Theorem info_needs_sklearn (E : Collab) (w : World) (e : Exn) :
  import_version E "sklearn" = Raise e →
  let o := invoke (info E) w in
  exit_code o = 1 ∧
  stderr o = ["Error: Error getting system info: " +:+ str e] ∧
  stdout (final o) = stdout w ∧
  calls (final o) = calls w ++ [EvImport "sklearn"].
Proof.
  intros Hfail. unfold invoke, info, info_body. unfold_monad. simpl.
  rewrite Hfail. by simpl.
Qed.

(** ** The configuration of [descriptors complex] *)


(** * Further runs on the reference collaborators *)

Module MoreRuns.

Import SpecModel Variants.


Lemma argv_untouched_elsewhere_witness :
  sys_argv (run collab (CmdInit IComplex "doptools_config.json") (world ∅)).2 = 0%nat ∧
  heap (run collab (CmdInit IComplex "doptools_config.json") (world ∅)).2
    = [["doptools"]].
Proof.
  apply (argv_untouched_elsewhere collab (CmdInit IComplex "doptools_config.json")
           (world ∅)).
  reflexivity.
Defined.

Lemma feature_named_ID_is_fatal_witness :
  (let o := invoke (circus identified "molecules.tsv" "out.csv" "SMILES" "ID" 0 1
                      false tab false) with_ids_table in
   exit_code o = 1 ∧
   stderr o = ["Error: Error calculating CircuS descriptors: "
               +:+ "cannot insert ID, already exists"] ∧
   files (final o) = files with_ids_table) ∧
  (let o := invoke (rdkit identified "molecules.tsv" "out.csv" "SMILES" "ID" "morgan"
                      4 2 tab false) with_ids_table in
   exit_code o = 1 ∧
   stderr o = ["Error: Error calculating RDKit descriptors: "
               +:+ "cannot insert ID, already exists"] ∧
   files (final o) = files with_ids_table).
Proof.
  destruct (feature_named_ID_is_fatal identified "molecules.tsv" "out.csv" "SMILES"
              "ID" tab false with_ids_table
              (frame_of ["ID"; "SMILES"]
                 [[CStr "m1"; CStr "CCO"]; [CStr "m2"; CStr "CCC"]])
              [CStr "CCO"; CStr "CCC"]) as (Hcircus & Hrdkit).
  - vm_compute; reflexivity.
  - vm_compute; reflexivity.
  - split.
    + eapply (Hcircus 0 1 false).
      * vm_compute; reflexivity.
      * vm_compute; reflexivity.
      * vm_compute; reflexivity.
      * apply (bool_decide_unpack _). vm_compute. exact I.
    + eapply (Hrdkit "morgan" 4 2).
      * vm_compute; reflexivity.
      * vm_compute; reflexivity.
      * apply (bool_decide_unpack _). vm_compute. exact I.
Defined.


Lemma verbose_reports_feature_count_witness :
  stdout (circus collab "molecules.tsv" "out.csv" "SMILES" "ID" 0 1 false tab true
            with_ids_table).2
    = circus_lines "molecules.tsv" "out.csv" 0 1 2 4 ∧
  stdout (rdkit collab "molecules.tsv" "out.csv" "SMILES" "ID" "morgan" 4 2 tab true
            with_ids_table).2
    = rdkit_lines "molecules.tsv" "out.csv" "morgan" 2 4 ∧
  stdout (complex collab "config.json" "molecules.tsv" "out.csv" tab true
            composite_table).2
    = complex_lines "config.json" "molecules.tsv" "out.csv" 2 4.
Proof.
  destruct (verbose_reports_feature_count collab "molecules.tsv" "out.csv" tab
              with_ids_table
              (frame_of ["ID"; "SMILES"]
                 [[CStr "m1"; CStr "CCO"]; [CStr "m2"; CStr "CCC"]]))
    as (Hcircus & Hrdkit & _).
  { vm_compute; reflexivity. }
  { apply (bool_decide_unpack _). vm_compute. exact I. }
  destruct (verbose_reports_feature_count collab "molecules.tsv" "out.csv" tab
              composite_table
              (frame_of ["molecules"] [[CStr "CCO"]; [CStr "CCC"]]))
    as (_ & _ & Hcomplex).
  { vm_compute; reflexivity. }
  { apply (bool_decide_unpack _). vm_compute. exact I. }
  split; [|split].
  - etrans; [eapply (Hcircus "SMILES" "ID" 0 1 false); vm_compute; reflexivity|].
    vm_compute; reflexivity.
  - etrans; [eapply (Hrdkit "SMILES" "ID" "morgan" 4 2); vm_compute; reflexivity|].
    vm_compute; reflexivity.
  - etrans; [eapply (Hcomplex "config.json"); vm_compute; reflexivity|].
    vm_compute; reflexivity.
Defined.

Lemma coloratom_saves_the_explained_figure_witness :
  ∃ painter fig written,
    explain collab painter "CCO" = Ok fig ∧
    savefig_name collab "figures/out" = Ok written ∧
    files (coloratom collab "model.pkl" "CCO" KCircus (Some "figures/out") false
             with_model).2
      = <[ written := FFigure fig 300 "tight" ]> (files with_model) ∧
    stdout (coloratom collab "model.pkl" "CCO" KCircus (Some "figures/out") false
              with_model).2
      = ["Analyzing SMILES: CCO"; "Visualization saved to figures/out"].
Proof.
  apply (coloratom_saves_the_explained_figure collab "model.pkl" "CCO" "figures/out"
           KCircus false with_model).
  - discriminate.
  - vm_compute; reflexivity.
Defined.

(** A name without an extension: matplotlib writes [out.png], and the
    command reports [out]; a format matplotlib does not know ends the
    command before anything is written. *)
Example figure_without_extension :
  let w' := (coloratom collab "model.pkl" "CCO" KMorgan (Some "out") false
               with_model).2 in
  let refused := coloratom collab "model.pkl" "CCO" KMorgan (Some "out.xyz") false
                   with_model in
  files w' !! "out" = None ∧
  files w' !! "out.png" = Some (FFigure "atom contributions of CCO" 300 "tight") ∧
  last (stdout w') = Some "Visualization saved to out" ∧
  savefig_name collab "v1.2/out" = Ok "v1.2/out.png" ∧
  savefig_name collab "out.SVG" = Ok "out.SVG" ∧
  refused.1 = Raise (ClickException
                       ("Error creating ColorAtom visualization: "
                        +:+ "Format 'xyz' is not supported (supported formats: "
                        +:+ "eps, jpeg, jpg, pdf, pgf, png, ps, raw, rgba, svg, "
                        +:+ "svgz, tif, tiff, webp)")) ∧
  files refused.2 = files with_model.
Proof. repeat split; vm_compute; reflexivity. Qed.



Lemma info_tolerates_missing_chemistry_witness :
  ∃ w', info without_rdkit (world ∅) = (Ok tt, w') ∧
        stdout w' = info_lines without_rdkit "1.0" "1.0" "1.0"
                      ++ ["  chython: Available"; "  rdkit: Not available"].
Proof.
  apply (info_tolerates_missing_chemistry without_rdkit (world ∅)); reflexivity.
Defined.

Lemma info_needs_sklearn_witness :
  let o := invoke (info without_sklearn) (world ∅) in
  exit_code o = 1 ∧
  stderr o = ["Error: Error getting system info: " +:+ "No module named 'sklearn'"] ∧
  stdout (final o) = [] ∧
  calls (final o) = [EvImport "sklearn"].
Proof.
  apply (info_needs_sklearn without_sklearn (world ∅)
           (PyError "ModuleNotFoundError" "No module named 'sklearn'")).
  reflexivity.
Defined.


End MoreRuns.
